(** * FTIR viewer (App.py): the spectral data pipeline

    A shallow embedding of the processing code of [App.py]: the loader
    [load_ftir_data], the min-max scaling [normalize_data], the band
    detector [find_ftir_peaks] (with the part of [scipy.signal.find_peaks]
    it runs), and the script body that loops over the uploaded files,
    builds the stacked plot, collects the band table and offers the
    downloads.

    Numbers.  pandas and numpy compute on binary64 values.  The pipeline is
    written once over an interface [Float64] of the operations the script
    uses, and the interface has two implementations: [Binary64], the
    kernel's IEEE 754 binary64 numbers, which is what the script runs on,
    and [Exact], the rationals.  A theorem stated over the interface holds
    for both; the facts of arithmetic that a theorem needs are collected
    in [Float64Laws], proved for the rationals and tried on binary64
    values.

    Exceptions.  A Python call that can raise returns an [option], with
    [None] for the exception: caught by the [try] of the loader it becomes
    the loader's [return None], and uncaught in the script body it ends
    the run. *)

From Stdlib Require Import List Bool Arith ZArith QArith Lia.
From Stdlib Require Import String Ascii.
From Stdlib Require Import Floats Uint63.
From Stdlib Require Import DecimalString DecimalNat Sorted Permutation.
Import ListNotations.

Set Warnings "-inexact-float".
Close Scope Q_scope.
Open Scope nat_scope.

(** ** Numbers *)

(** The operations of Python, numpy and pandas on floating-point values
    that [App.py] uses.  [lit] reads a decimal literal of the source (or
    converts an [int], as in [idx * offset_value]); comparisons return
    [bool] as [<], [<=] and [==] do; [finite] is [math.isfinite];
    [round_nd v n] is the builtin [round(v, n)]. *)
Class Float64 : Type := {
  num : Type;
  lit : Q -> num;
  fadd : num -> num -> num;
  fsub : num -> num -> num;
  fmul : num -> num -> num;
  fdiv : num -> num -> num;
  flt : num -> num -> bool;
  fle : num -> num -> bool;
  feq : num -> num -> bool;
  finite : num -> bool;
  round_nd : num -> nat -> num
}.

(** [a >= b] is the mirrored comparison. *)
Definition fge `{Float64} (a b : num) : bool := fle b a.

Definition of_int `{Float64} (z : Z) : num := lit (inject_Z z).

(** A value is a NaN exactly when it differs from itself. *)
Definition isnan `{Float64} (v : num) : bool := negb (feq v v).

(** The facts about the arithmetic that the scaling of a signal rests
    on.  They hold for the rationals, and for binary64 as IEEE 754
    defines it (round to nearest, gradual underflow): comparisons are a
    total order on the values that are not NaN; rounding keeps [-] and
    [/] monotone; the difference of two distinct finite values is not
    zero; and a finite positive value divided by itself is exactly 1.
    What binary64 does not give is a finite result: [fsub] of two finite
    values may overflow, which is why the facts about [/] ask for a
    finite divisor. *)
Class Float64Laws (F : Float64) : Prop := {
  fle_trans : forall a b c : num, fle a b = true -> fle b c = true -> fle a c = true;
  fle_total : forall a b : num,
    fle a a = true -> fle b b = true -> fle a b = true \/ fle b a = true;
  fle_ordered : forall a b : num, fle a b = true -> fle a a = true /\ fle b b = true;
  feq_fle : forall a b : num, feq a b = fle a b && fle b a;
  flt_fle : forall a b : num, flt a b = fle a b && negb (fle b a);
  finite_ordered : forall a : num, finite a = true -> fle a a = true;
  sub_self : forall a : num, finite a = true -> feq (fsub a a) (lit 0) = true;
  sub_mono : forall a b c : num,
    finite c = true -> fle a b = true -> fle (fsub a c) (fsub b c) = true;
  sub_pos : forall a b : num,
    finite a = true -> finite b = true -> flt a b = true ->
    flt (lit 0) (fsub b a) = true;
  div_zero : forall z d : num,
    finite d = true -> flt (lit 0) d = true -> feq z (lit 0) = true ->
    feq (fdiv z d) (lit 0) = true;
  div_self : forall d : num,
    finite d = true -> flt (lit 0) d = true -> feq (fdiv d d) (lit 1) = true;
  div_mono : forall a b d : num,
    finite d = true -> flt (lit 0) d = true -> fle a b = true ->
    fle (fdiv a d) (fdiv b d) = true
}.

(** The same facts as tests on three given values, to try them on
    binary64 numbers. *)
Definition laws_hold_at `{Float64} (a b c : num) : bool :=
  implb (fle a b && fle b c) (fle a c) &&
  implb (fle a a && fle b b) (fle a b || fle b a) &&
  implb (fle a b) (fle a a && fle b b) &&
  Bool.eqb (feq a b) (fle a b && fle b a) &&
  Bool.eqb (flt a b) (fle a b && negb (fle b a)) &&
  implb (finite a) (fle a a) &&
  implb (finite a) (feq (fsub a a) (lit 0)) &&
  implb (finite c && fle a b) (fle (fsub a c) (fsub b c)) &&
  implb (finite a && finite b && flt a b) (flt (lit 0) (fsub b a)) &&
  implb (finite c && flt (lit 0) c && feq a (lit 0)) (feq (fdiv a c) (lit 0)) &&
  implb (finite c && flt (lit 0) c) (feq (fdiv c c) (lit 1)) &&
  implb (finite c && flt (lit 0) c && fle a b) (fle (fdiv a c) (fdiv b c)).

Definition laws_hold_on `{Float64} (vs : list num) : bool :=
  forallb (fun a => forallb (fun b => forallb (fun c => laws_hold_at a b c) vs) vs) vs.

(** *** Rounding to decimals, on exact values *)

(** The integer nearest to [a / b] ([0 < b]), ties to the even one. *)
Definition div_half_even (a b : Z) : Z :=
  let q := (a / b)%Z in
  let r := (a mod b)%Z in
  match (2 * r ?= b)%Z with
  | Lt => q
  | Gt => (q + 1)%Z
  | Eq => if Z.even q then q else (q + 1)%Z
  end.

Definition ten_to (n : nat) : Z := (10 ^ Z.of_nat n)%Z.

(** [q] rounded to [n] decimals, half to even: the decimal value that
    Python's [round] computes from the exact value of its argument. *)
Definition Qround_nd (q : Q) (n : nat) : Q :=
  let scaled := (Qnum q * ten_to n)%Z in
  Qred (Qmake (div_half_even scaled (Zpos (Qden q))) 1 / inject_Z (ten_to n))%Q.

(** *** The rationals *)

#[export] Instance Exact : Float64 := {|
  num := Q;
  lit := fun q => q;
  fadd := Qplus;
  fsub := Qminus;
  fmul := Qmult;
  fdiv := Qdiv;
  flt := fun a b => negb (Qle_bool b a);
  fle := Qle_bool;
  feq := Qeq_bool;
  finite := fun _ => true;
  round_nd := Qround_nd
|}.

(** *** IEEE 754 binary64 *)

(** The exact value of a finite binary64 number. *)
Definition Q_of_float (x : float) : Q :=
  match Prim2SF x with
  | S754_finite s m e =>
      let sm := if s then Zneg m else Zpos m in
      match e with
      | Zneg p => Qmake sm (Pos.pow 2 p)
      | _ => inject_Z (sm * 2 ^ e)
      end
  | _ => 0%Q
  end.

(** The binary64 number nearest to a rational, ties to even: what reading
    a decimal literal gives, and [strtod] at the end of [round]. *)
Definition float_of_Q (q : Q) : float :=
  let n := Qnum q in
  let d := Zpos (Qden q) in
  if (n =? 0)%Z then 0%float else
  let a := Z.abs n in
  let scale (e : Z) : Z * Z :=
    match e with
    | Zneg p => (a * 2 ^ Zpos p, d)%Z
    | _ => (a, d * 2 ^ e)%Z
    end in
  let e1 := (Z.log2 a - Z.log2 d - 53)%Z in
  let '(a1, d1) := scale e1 in
  let e2 := if (2 ^ 53 <=? a1 / d1)%Z then (e1 + 1)%Z else e1 in
  let e := Z.max e2 (-1074) in
  let '(a2, d2) := scale e in
  let m := div_half_even a2 d2 in
  let r := Z.ldexp (PrimFloat.of_uint63 (Uint63.of_Z m)) e in
  if (n <? 0)%Z then PrimFloat.opp r else r.

(** [float.__round__] with [ndigits]: NaN, infinities and zeros are
    returned as they are; otherwise the exact value is rounded to the
    decimal and the decimal read back, keeping the sign. *)
Definition float_round (x : float) (n : nat) : float :=
  if negb (PrimFloat.is_finite x) || PrimFloat.is_zero x then x else
  let r := float_of_Q (Qround_nd (Q_of_float x) n) in
  if PrimFloat.is_zero r && PrimFloat.get_sign x then PrimFloat.opp r else r.

#[export] Instance Binary64 : Float64 := {|
  num := float;
  lit := float_of_Q;
  fadd := PrimFloat.add;
  fsub := PrimFloat.sub;
  fmul := PrimFloat.mul;
  fdiv := PrimFloat.div;
  flt := PrimFloat.ltb;
  fle := PrimFloat.leb;
  feq := PrimFloat.eqb;
  finite := PrimFloat.is_finite;
  round_nd := float_round
|}.

(** ** Strings *)

Open Scope string_scope.
Open Scope list_scope.
Open Scope nat_scope.

(** [str.lower] on text decoded as Latin-1 ([encoding='latin1']): the
    ASCII capitals and the accented capitals U+00C0..U+00DE (the
    multiplication sign U+00D7 apart) move up by 32. *)
Definition lower_char (c : ascii) : ascii :=
  let n := nat_of_ascii c in
  if ((65 <=? n) && (n <=? 90)) ||
     ((192 <=? n) && (n <=? 222) && negb (n =? 215))
  then ascii_of_nat (n + 32) else c.

Fixpoint lower (s : string) : string :=
  match s with
  | EmptyString => EmptyString
  | String c s' => String (lower_char c) (lower s')
  end.

(** [str.isspace] for one Latin-1 character. *)
Definition is_space (c : ascii) : bool :=
  let n := nat_of_ascii c in
  ((9 <=? n) && (n <=? 13)) || ((28 <=? n) && (n <=? 32)) ||
  (n =? 133) || (n =? 160).

Fixpoint lstrip (s : string) : string :=
  match s with
  | EmptyString => EmptyString
  | String c s' => if is_space c then lstrip s' else s
  end.

Fixpoint rstrip (s : string) : string :=
  match s with
  | EmptyString => EmptyString
  | String c s' =>
      match rstrip s' with
      | EmptyString => if is_space c then EmptyString else String c EmptyString
      | r => String c r
      end
  end.

Definition strip (s : string) : string := rstrip (lstrip s).

(** [sub in s]. *)
Fixpoint contains (sub s : string) : bool :=
  prefix sub s ||
  match s with
  | EmptyString => false
  | String _ s' => contains sub s'
  end.

(** [s.rsplit('.', 1)[0]]: the text before the last dot, all of [s] when
    it has none. *)
Fixpoint before_last_dot (s : string) : option string :=
  match s with
  | EmptyString => None
  | String c s' =>
      match before_last_dot s' with
      | Some h => Some (String c h)
      | None => if Ascii.eqb c "." then Some EmptyString else None
      end
  end.

Definition rsplit_dot_head (s : string) : string :=
  match before_last_dot s with
  | Some h => h
  | None => s
  end.

(** Plain decimals, [-12.5] or [400]: the texts that stand for numbers in
    the example tables below. *)
Fixpoint decimal_digits (s : string) (acc : Z) (seen : bool) (scale : Z) (frac : bool)
  : option Q :=
  match s with
  | EmptyString =>
      if seen then Some (Qred (Qmake acc 1 / Qmake scale 1)%Q) else None
  | String c s' =>
      let n := nat_of_ascii c in
      if (48 <=? n) && (n <=? 57) then
        decimal_digits s' (acc * 10 + Z.of_nat (n - 48))%Z true
                       (if frac then scale * 10 else scale)%Z frac
      else if Ascii.eqb c "." && negb frac then decimal_digits s' acc seen scale true
      else None
  end.

Definition plain_decimal (s : string) : option Q :=
  match s with
  | String "-" s' => option_map Qopp (decimal_digits s' 0 false 1 false)
  | _ => decimal_digits s 0 false 1 false
  end.

(** ** Tables and the loader *)

Section Pipeline.

Context {F : Float64}.

(** What [pd.to_numeric] reads from the text of a cell ([None]: not a
    number).  pandas' parser is not part of the script. *)
Variable to_float : string -> option num.

(** A cell of the table [pd.read_csv] returns: a number, a text, or a
    missing value (an empty field, read as NaN). *)
Inductive cell : Type :=
| Number (v : num)
| Text (s : string)
| Missing.

(** The table: its column labels and its rows, one cell per column. *)
Record DataFrame : Type := {
  columns : list string;
  rows : list (list cell)
}.

(** An uploaded file: its name and what [pd.read_csv(file,
    skiprows=k, encoding='latin1')] returns for it, [None] when it raises. *)
Record UploadedFile : Type := {
  name : string;
  read_csv : nat -> option DataFrame
}.

(** A row of the standardised frame: its [x] (wavenumber) and [y]
    (transmittance). *)
Record Row : Type := {
  x_val : num;
  y_val : num
}.

Definition Frame : Type := list Row.

(** The frame [load_ftir_data] hands back, as the caller sees it through
    [df['x']] and [df['y']].  [Usable]: one column of numbers is labelled
    [x] and one [y].  [TextX n]: the column labelled [x] holds text ([n]
    rows), so comparing it with a number raises [TypeError].  [TwoY xs]:
    two columns are labelled [y], so [df['y']] is a table, on which
    [normalize_data] and [find_peaks] raise [ValueError]; [xs] is its
    column [x]. *)
Inductive Loaded : Type :=
| Usable (df : Frame)
| TextX (n : nat)
| TwoY (xs : list num).

(** [df['x']] and [df['y']]. *)
Definition col_x (df : Frame) : list num := map x_val df.
Definition col_y (df : Frame) : list num := map y_val df.

(** [df['y'] = ys]: the column is replaced position by position. *)
Definition set_col_y (df : Frame) (ys : list num) : Frame :=
  map (fun p => {| x_val := x_val (fst p); y_val := snd p |}) (combine df ys).

Definition is_wavenumber_name (c : string) : bool :=
  contains "cm-1" c || contains "wave" c || contains "numero" c ||
  contains "wavenumber" c.

Definition is_transmittance_name (c : string) : bool :=
  contains "%t" c || contains "trans" c || contains "tra" c.

(** Python's truth value of [next(..., None)]: [None] and the empty
    string are false. *)
Definition truthy (o : option string) : bool :=
  match o with
  | Some s => negb (String.eqb s "")
  | None => false
  end.

(** The positions at which a label stands among the column labels. *)
Fixpoint positions (label : string) (cols : list string) (j : nat) : list nat :=
  match cols with
  | [] => []
  | c :: cols' =>
      if String.eqb c label then j :: positions label cols' (S j)
      else positions label cols' (S j)
  end.

(** [df[label]] is one column only when the label stands once: a label
    that is missing raises [KeyError], and one that stands twice selects
    a table, which [pd.to_numeric] and [sort_values] refuse. *)
Definition column_index (label : string) (cols : list string) : option nat :=
  match positions label cols 0 with
  | [j] => Some j
  | _ => None
  end.

Fixpoint update_nth {A : Type} (j : nat) (f : A -> A) (l : list A) : list A :=
  match l, j with
  | [], _ => []
  | a :: l', 0 => f a :: l'
  | a :: l', S j' => a :: update_nth j' f l'
  end.

(** [pd.to_numeric(..., errors='coerce')] on one cell. *)
Definition to_numeric (c : cell) : cell :=
  match c with
  | Number v => Number v
  | Text s =>
      match to_float s with
      | Some v => Number v
      | None => Missing
      end
  | Missing => Missing
  end.

Definition isna (c : cell) : bool :=
  match c with
  | Number v => isnan v
  | Text _ => false
  | Missing => true
  end.

(** [df.dropna()]: a row stays when none of its cells, in any column, is
    missing. *)
Definition dropna (rs : list (list cell)) : list (list cell) :=
  filter (fun r => forallb (fun c => negb (isna c)) r) rs.

(** [df.rename(columns={w: 'x', t: 'y'})]; when [w] and [t] are one
    label the dictionary keeps its last entry. *)
Definition rename (w t : string) (cols : list string) : list string :=
  map (fun c => if String.eqb c t then "y" else if String.eqb c w then "x" else c) cols.

(** The cells of column [j], row by row. *)
Fixpoint column_cells (j : nat) (rs : list (list cell)) : option (list cell) :=
  match rs with
  | [] => Some []
  | r :: rs' =>
      match nth_error r j, column_cells j rs' with
      | Some c, Some cs => Some (c :: cs)
      | _, _ => None
      end
  end.

(** A column of numbers, as numbers. *)
Fixpoint numbers_of (cs : list cell) : option (list num) :=
  match cs with
  | [] => Some []
  | Number v :: cs' => option_map (cons v) (numbers_of cs')
  | _ :: _ => None
  end.

Definition all_text (cs : list cell) : bool :=
  forallb (fun c => match c with Text _ => true | _ => false end) cs.

Definition frame_of (xs ys : list num) : Frame :=
  map (fun p => {| x_val := fst p; y_val := snd p |}) (combine xs ys).

(** [sort_values(..., ascending=False)] on a key, as an insertion sort;
    entries with equal keys keep their order here (pandas does not
    promise one). *)
Fixpoint insert_desc {A : Type} (key : A -> num) (a : A) (l : list A) : list A :=
  match l with
  | [] => [a]
  | h :: t => if flt (key a) (key h) then h :: insert_desc key a t else a :: l
  end.

Definition sort_values_desc {A : Type} (key : A -> num) (l : list A) : list A :=
  fold_right (insert_desc key) [] l.

(** The last two steps of the loader, [rename] and [sort_values(by='x')],
    on the labels after renaming and the rows that were kept.
    [sort_values] raises when the label [x] is missing or repeated, and
    when the column mixes text and numbers. *)
Definition standardise (cols' : list string) (kept : list (list cell)) : option Loaded :=
  match column_index "x" cols' with
  | None => None
  | Some jx =>
      match column_cells jx kept with
      | None => None
      | Some x_cells =>
          match numbers_of x_cells with
          | Some xs =>
              match positions "y" cols' 0 with
              | [] => None
              | [jy] =>
                  match column_cells jy kept with
                  | Some y_cells =>
                      match numbers_of y_cells with
                      | Some ys => Some (Usable (sort_values_desc x_val (frame_of xs ys)))
                      | None => None
                      end
                  | None => None
                  end
              | _ :: _ :: _ => Some (TwoY (sort_values_desc (fun v => v) xs))
              end
          | None =>
              if all_text x_cells then Some (TextX (List.length kept)) else None
          end
      end
  end.

(** The two labels the loader settles on: by keyword, else the first two
    columns, else nothing. *)
Definition select_columns (cols : list string) : option (string * string) :=
  let wavenumber_col := find is_wavenumber_name cols in
  let transmittance_col := find is_transmittance_name cols in
  if negb (truthy wavenumber_col) || negb (truthy transmittance_col) then
    match cols with
    | c0 :: c1 :: _ => Some (c0, c1)
    | _ => None
    end
  else
    match wavenumber_col, transmittance_col with
    | Some w, Some t => Some (w, t)
    | _, _ => None
    end.

(** The rows of the table after the two coercions and [dropna]. *)
Definition clean_rows (jw jt : nat) (rs : list (list cell)) : list (list cell) :=
  dropna (map (update_nth jt to_numeric) (map (update_nth jw to_numeric) rs)).

(** [load_ftir_data(uploaded_file, skip_rows)].  [None] is the script's
    [return None], taken on too few columns and on any exception. *)
Definition load_ftir_data (uploaded_file : UploadedFile) (skip_rows : nat)
  : option Loaded :=
  match read_csv uploaded_file skip_rows with
  | None => None
  | Some df =>
      let cols := map (fun c => strip (lower c)) (columns df) in
      match select_columns cols with
      | None => None
      | Some (wavenumber_col, transmittance_col) =>
          match column_index wavenumber_col cols,
                column_index transmittance_col cols with
          | Some jw, Some jt =>
              standardise (rename wavenumber_col transmittance_col cols)
                          (clean_rows jw jt (rows df))
          | _, _ => None
          end
      end
  end.

(** ** Min-max scaling *)

(** [series.max()] and [series.min()]: NaN entries are skipped, and the
    NaN that pandas returns for a series with nothing left is [None]. *)
Definition series_max (series : list num) : option num :=
  match filter (fun v => negb (isnan v)) series with
  | [] => None
  | v :: vs => Some (fold_left (fun acc w => if flt acc w then w else acc) vs v)
  end.

Definition series_min (series : list num) : option num :=
  match filter (fun v => negb (isnan v)) series with
  | [] => None
  | v :: vs => Some (fold_left (fun acc w => if flt w acc then w else acc) vs v)
  end.

(** [normalize_data(series)].  When [max] and [min] are NaN the test
    [max == min] is false and the arithmetic runs on NaN: every entry of
    such a series is a NaN already and stays one. *)
Definition normalize_data (series : list num) : list num :=
  match series_max series, series_min series with
  | Some hi, Some lo =>
      if feq hi lo then series
      else map (fun v => fdiv (fsub v lo) (fsub hi lo)) series
  | _, _ => series
  end.


(** ** Band detection *)

(** [x[i]] for an index inside the array. *)
Definition at_index (x : list num) (i : nat) : num := nth i x (of_int 0).

(** scipy's [_local_maxima_1d], inner loop:
    [while i_ahead < i_max and x[i_ahead] == x[i]: i_ahead += 1]. *)
Fixpoint plateau_end (x : list num) (i i_max i_ahead fuel : nat) : nat :=
  match fuel with
  | 0 => i_ahead
  | S fuel' =>
      if (i_ahead <? i_max) && feq (at_index x i_ahead) (at_index x i)
      then plateau_end x i i_max (S i_ahead) fuel'
      else i_ahead
  end.

(** scipy's [_local_maxima_1d], outer loop [while i < i_max]: the
    midpoints of the plateaus that are strictly higher than both
    neighbours.  Every turn advances [i], so [fuel] turns are enough when
    [i_max - i <= fuel]. *)
Fixpoint local_maxima_loop (x : list num) (i_max i fuel : nat) : list nat :=
  match fuel with
  | 0 => []
  | S fuel' =>
      if i <? i_max then
        if flt (at_index x (i - 1)) (at_index x i) then
          let i_ahead := plateau_end x i i_max (i + 1) i_max in
          if flt (at_index x i_ahead) (at_index x i) then
            let left_edge := i in
            let right_edge := i_ahead - 1 in
            (left_edge + right_edge) / 2
              :: local_maxima_loop x i_max (i_ahead + 1) fuel'
          else local_maxima_loop x i_max (i + 1) fuel'
        else local_maxima_loop x i_max (i + 1) fuel'
      else []
  end.

(** [i] starts at 1 and [i_max] is [x.shape[0] - 1]; for an empty array
    that is [-1] in scipy and [0] here, and the loop is not entered in
    either reading. *)
Definition local_maxima_1d (x : list num) : list nat :=
  local_maxima_loop x (List.length x - 1) 1 (List.length x).

(** scipy's [_peak_prominences], one of its two scans: walking away from
    the peak while the signal stays at or below the peak's height, the
    lowest value met. *)
Fixpoint base_min (peak_height : num) (walk : list num) (lowest : num) : num :=
  match walk with
  | [] => lowest
  | v :: walk' =>
      if fle v peak_height
      then base_min peak_height walk' (if flt v lowest then v else lowest)
      else lowest
  end.

Definition fmax (a b : num) : num := if flt a b then b else a.

(** The prominence of the peak at index [peak] over the whole signal
    ([wlen=None]). *)
Definition peak_prominence (x : list num) (peak : nat) : num :=
  let height := at_index x peak in
  let left_min := base_min height (rev (firstn (S peak) x)) height in
  let right_min := base_min height (skipn peak x) height in
  fsub height (fmax left_min right_min).

(** [find_peaks(x, prominence=p)[0]]: the local maxima whose prominence is
    at least [p]. *)
Definition find_peaks (x : list num) (prominence : num) : list nat :=
  filter (fun peak => fle prominence (peak_prominence x peak)) (local_maxima_1d x).

(** [s.iloc[idx]]: positional selection; [None] is pandas' [IndexError]. *)
Fixpoint iloc {A : Type} (s : list A) (idx : list nat) : option (list A) :=
  match idx with
  | [] => Some []
  | i :: idx' =>
      match nth_error s i, iloc s idx' with
      | Some a, Some rest => Some (a :: rest)
      | _, _ => None
      end
  end.

(** [find_ftir_peaks(x, y, prominence)]: the bands are valleys of the
    transmittance, so the maxima of [-1*y] are searched. *)
Definition find_ftir_peaks (x y : list num) (prominence : num)
  : option (list num * list num) :=
  let peaks := find_peaks (map (fun v => fmul (of_int (-1)) v) y) prominence in
  match iloc x peaks, iloc y peaks with
  | Some peaks_x, Some peaks_y => Some (peaks_x, peaks_y)
  | _, _ => None
  end.

(** ** The script *)

(** The sidebar: what the widgets return in one run of the script.
    [separacion_vertical] is the slider shown in stacked mode; the three
    functions are the per-file widgets of the expander, given the file's
    position (and the default the script proposes). *)
Record Config : Type := {
  skip_rows : nat;
  x_max_limit : num;
  x_min_limit : num;
  normalize_option : bool;
  stack_mode : bool;
  separacion_vertical : num;
  font_size_axis : nat;
  font_size_legend : nat;
  loc_legend : string;
  text_input : nat -> string -> string;
  color_picker : nat -> string -> string;
  selectbox : nat -> string
}.

(** [offset_value = 0.0], replaced by the slider only in stacked mode. *)
Definition offset_value (cfg : Config) : num :=
  if stack_mode cfg then separacion_vertical cfg else lit 0.

(** An entry of [plot_data]. *)
Record PlotItem : Type := {
  df : Frame;
  label : string;
  color : string;
  linestyle : string;
  filename : string
}.

(** A line drawn by [ax.plot]. *)
Record Line : Type := {
  line_x : list num;
  line_y : list num;
  line_label : string;
  line_color : string;
  line_linestyle : string
}.

(** An entry of [all_peaks_data]; the fields are the four columns of the
    band table: "Serie", "Numero de Onda (cm-1)", "Transmitancia
    Original" and "Archivo Origen". *)
Record PeakRecord : Type := {
  Serie : string;
  Numero_de_Onda : num;
  Transmitancia_Original : num;
  Archivo_Origen : string
}.

(** The figure handed to [st.pyplot] and [fig.savefig]. *)
Record Figure : Type := {
  lines : list Line;
  xlim : num * num;
  axis_fontsize : nat;
  legend : option (string * nat)
}.

(** What the page shows, in the order the script emits it: the warning
    and the error notice of the file loop with the name of their file,
    the expander that holds a file's widgets, the figure, the two
    download buttons, the band table, and the welcome text of a run
    without files.  Titles, captions and dividers are left out. *)
Inductive Event : Type :=
| st_warning (file : string)
| st_error (file : string)
| st_expander (file : string) (expanded : bool)
| st_pyplot (fig : Figure)
| download_png (fig : Figure)
| download_csv (df_peaks : list PeakRecord)
| st_dataframe (df_peaks : list PeakRecord)
| st_info.

Definition default_colors : list string :=
  ["#1f77b4"; "#ff7f0e"; "#2ca02c"; "#d62728"; "#9467bd"; "#8c564b"].

(** [mask = (df['x'] <= x_max_limit) & (df['x'] >= x_min_limit)], entry
    by entry of the column and row by row of the frame. *)
Definition in_window (cfg : Config) (v : num) : bool :=
  fle v (x_max_limit cfg) && fge v (x_min_limit cfg).

Definition mask (cfg : Config) (r : Row) : bool := in_window cfg (x_val r).

(** [df[mask].copy()]. *)
Definition apply_mask (cfg : Config) (df0 : Frame) : Frame := filter (mask cfg) df0.

(** The frame stored in [plot_data] for a loaded frame whose masked part
    is not empty. *)
Definition scaled (cfg : Config) (df_filtered : Frame) : Frame :=
  if normalize_option cfg
  then set_col_y df_filtered (normalize_data (col_y df_filtered))
  else df_filtered.

(** One turn of [for i, file in enumerate(uploaded_files)], on the pair
    of [plot_data] and what was shown so far; [None] is an exception,
    which nothing in the script catches.  On a frame whose [x] is text
    the mask raises.  On a frame with two [y] columns the mask works, and
    when a row passes it the run ends in an exception: in
    [normalize_data], or else in [find_ftir_peaks] once the plot loop
    reaches the entry. *)
Definition process_file (cfg : Config) (i : nat) (file : UploadedFile)
    (st : list PlotItem * list Event) : option (list PlotItem * list Event) :=
  let '(plot_data, shown) := st in
  match load_ftir_data file (skip_rows cfg) with
  | Some (Usable ((_ :: _) as df0)) =>
      match apply_mask cfg df0 with
      | [] => Some (plot_data, shown ++ [st_warning (name file)])
      | df_filtered =>
          let default_name := rsplit_dot_head (name file) in
          let item := {|
            df := scaled cfg df_filtered;
            label := text_input cfg i default_name;
            color := color_picker cfg i
                       (nth (i mod List.length default_colors) default_colors "");
            linestyle := selectbox cfg i;
            filename := name file |} in
          Some (plot_data ++ [item], shown ++ [st_expander (name file) (i =? 0)])
      end
  | Some (TextX (S _)) => None
  | Some (TwoY ((_ :: _) as xs)) =>
      match filter (in_window cfg) xs with
      | [] => Some (plot_data, shown ++ [st_warning (name file)])
      | _ => None
      end
  | _ => Some (plot_data, shown ++ [st_error (name file)])
  end.

Fixpoint file_loop (cfg : Config) (i : nat) (uploaded_files : list UploadedFile)
    (st : list PlotItem * list Event) : option (list PlotItem * list Event) :=
  match uploaded_files with
  | [] => Some st
  | file :: rest =>
      match process_file cfg i file st with
      | Some st' => file_loop cfg (S i) rest st'
      | None => None
      end
  end.

(** [prom = 0.02 if normalize_option else 0.5], as the decimal literals
    of the source. *)
Definition prom_literal (normalize : bool) : Q := if normalize then 0.02%Q else 0.5%Q.

Definition prom (cfg : Config) : num := lit (prom_literal (normalize_option cfg)).

(** [current_offset = idx * offset_value if stack_mode else 0]. *)
Definition current_offset (cfg : Config) (idx : nat) : num :=
  if stack_mode cfg
  then fmul (of_int (Z.of_nat idx)) (offset_value cfg)
  else of_int 0.

(** The line [ax.plot] draws for the entry at position [idx]. *)
Definition plot_line (cfg : Config) (idx : nat) (item : PlotItem) : Line :=
  let y_plot := col_y (df item) in
  let x_plot := col_x (df item) in
  let y_final := map (fun v => fadd v (current_offset cfg idx)) y_plot in
  {| line_x := x_plot;
     line_y := y_final;
     line_label := label item;
     line_color := color item;
     line_linestyle := linestyle item |}.

(** The dictionary appended for one detected band. *)
Definition peak_record (item : PlotItem) (p : num * num) : PeakRecord :=
  let '(px, py) := p in
  {| Serie := label item;
     Numero_de_Onda := round_nd px 2;
     Transmitancia_Original := round_nd py 4;
     Archivo_Origen := filename item |}.

(** One turn of [for idx, item in enumerate(plot_data)]; [None] when
    [find_ftir_peaks] raises. *)
Definition plot_item (cfg : Config) (idx : nat) (item : PlotItem)
    (st : list Line * list PeakRecord) : option (list Line * list PeakRecord) :=
  let '(drawn, all_peaks_data) := st in
  match find_ftir_peaks (col_x (df item)) (col_y (df item)) (prom cfg) with
  | Some (peaks_x, peaks_y) =>
      Some (drawn ++ [plot_line cfg idx item],
            all_peaks_data ++ map (peak_record item) (combine peaks_x peaks_y))
  | None => None
  end.

Fixpoint plot_loop (cfg : Config) (idx : nat) (plot_data : list PlotItem)
    (st : list Line * list PeakRecord) : option (list Line * list PeakRecord) :=
  match plot_data with
  | [] => Some st
  | item :: rest =>
      match plot_item cfg idx item st with
      | Some st' => plot_loop cfg (S idx) rest st'
      | None => None
      end
  end.

(** The figure after the cosmetic calls: inverted x axis, font sizes, and
    the legend unless its position is "none". *)
Definition figure (cfg : Config) (drawn : list Line) : Figure :=
  {| lines := drawn;
     xlim := (x_max_limit cfg, x_min_limit cfg);
     axis_fontsize := font_size_axis cfg;
     legend := if String.eqb (loc_legend cfg) "none" then None
               else Some (loc_legend cfg, font_size_legend cfg) |}.

(** The downloads: the image always, the band table only when
    [all_peaks_data] is not empty. *)
Definition exports (fig : Figure) (all_peaks_data : list PeakRecord) : list Event :=
  download_png fig ::
  match all_peaks_data with
  | [] => []
  | _ => [download_csv all_peaks_data; st_dataframe all_peaks_data]
  end.

(** The state of the script when it ends: what it showed, and its
    variables [plot_data] and [all_peaks_data] (empty when never set). *)
Record Page : Type := {
  shown : list Event;
  plot_data : list PlotItem;
  all_peaks_data : list PeakRecord
}.

(** The script from [if uploaded_files:] on; [None] is an exception that
    nothing catches. *)
Definition main (cfg : Config) (uploaded_files : list UploadedFile) : option Page :=
  match uploaded_files with
  | [] => Some {| shown := [st_info]; plot_data := []; all_peaks_data := [] |}
  | _ =>
      match file_loop cfg 0 uploaded_files ([], []) with
      | Some ([], notices) =>
          Some {| shown := notices; plot_data := []; all_peaks_data := [] |}
      | Some (items, notices) =>
          match plot_loop cfg 0 items ([], []) with
          | Some (drawn, peaks) =>
              let fig := figure cfg drawn in
              Some {| shown := notices ++ st_pyplot fig :: exports fig peaks;
                      plot_data := items;
                      all_peaks_data := peaks |}
          | None => None
          end
      | None => None
      end
  end.

(** The same sidebar with other choices for the stacking widgets. *)
Definition with_stacking (cfg : Config) (stacked : bool) (offset_step : num) : Config :=
  {| skip_rows := skip_rows cfg;
     x_max_limit := x_max_limit cfg;
     x_min_limit := x_min_limit cfg;
     normalize_option := normalize_option cfg;
     stack_mode := stacked;
     separacion_vertical := offset_step;
     font_size_axis := font_size_axis cfg;
     font_size_legend := font_size_legend cfg;
     loc_legend := loc_legend cfg;
     text_input := text_input cfg;
     color_picker := color_picker cfg;
     selectbox := selectbox cfg |}.

(** *** Reading a run *)

(** The four ways the file loop treats a file: the load fails (the
    script's [else] branch: [None] or a frame without rows), the frame has
    no row inside the window, the file becomes an entry of [plot_data],
    or its frame makes the run raise. *)
Definition load_fails (cfg : Config) (file : UploadedFile) : bool :=
  match load_ftir_data file (skip_rows cfg) with
  | Some (Usable (_ :: _)) | Some (TextX (S _)) | Some (TwoY (_ :: _)) => false
  | _ => true
  end.

Definition empty_window (cfg : Config) (file : UploadedFile) : bool :=
  match load_ftir_data file (skip_rows cfg) with
  | Some (Usable ((_ :: _) as df0)) =>
      match apply_mask cfg df0 with
      | [] => true
      | _ => false
      end
  | Some (TwoY ((_ :: _) as xs)) =>
      match filter (in_window cfg) xs with
      | [] => true
      | _ => false
      end
  | _ => false
  end.

Definition processed (cfg : Config) (file : UploadedFile) : bool :=
  match load_ftir_data file (skip_rows cfg) with
  | Some (Usable ((_ :: _) as df0)) =>
      match apply_mask cfg df0 with
      | [] => false
      | _ => true
      end
  | _ => false
  end.

Definition raises (cfg : Config) (file : UploadedFile) : bool :=
  match load_ftir_data file (skip_rows cfg) with
  | Some (TextX (S _)) => true
  | Some (TwoY ((_ :: _) as xs)) =>
      match filter (in_window cfg) xs with
      | [] => false
      | _ => true
      end
  | _ => false
  end.

(** The files named by the error notices, and by the warnings. *)
Definition errors (evs : list Event) : list string :=
  flat_map (fun e => match e with st_error f => [f] | _ => [] end) evs.

Definition warnings (evs : list Event) : list string :=
  flat_map (fun e => match e with st_warning f => [f] | _ => [] end) evs.

(** The per-file events of the loop, as opposed to the figure and the
    downloads. *)
Definition is_notice (e : Event) : bool :=
  match e with
  | st_warning _ | st_error _ | st_expander _ _ => true
  | _ => false
  end.

(** The records one entry of [plot_data] contributes. *)
Definition item_peaks (cfg : Config) (item : PlotItem) : list PeakRecord :=
  match find_ftir_peaks (col_x (df item)) (col_y (df item)) (prom cfg) with
  | Some (peaks_x, peaks_y) => map (peak_record item) (combine peaks_x peaks_y)
  | None => []
  end.

(** The lines of the entries from position [idx] on. *)
Fixpoint lines_from (cfg : Config) (idx : nat) (items : list PlotItem) : list Line :=
  match items with
  | [] => []
  | item :: rest => plot_line cfg idx item :: lines_from cfg (S idx) rest
  end.

End Pipeline.

(** ** Relations on lists *)

(** [l1] is [l2] with some entries left out, the others in their order. *)
Inductive Subsequence {A : Type} : list A -> list A -> Prop :=
| Subsequence_nil : Subsequence [] []
| Subsequence_skip a l1 l2 : Subsequence l1 l2 -> Subsequence l1 (a :: l2)
| Subsequence_keep a l1 l2 : Subsequence l1 l2 -> Subsequence (a :: l1) (a :: l2).


(** ** Example inputs *)

(** Plain decimals as the numeric parser, for the examples. *)
Definition decimal_to_float `{Float64} (s : string) : option num :=
  option_map lit (plain_decimal s).

(** The two-row table with the header [Wavenumber(cm-1),
    %Transmittance]. *)
Definition two_row_table : DataFrame (F := Binary64) :=
  {| columns := ["Wavenumber(cm-1)"; " %Transmittance"];
     rows := [[Number 4000.0; Number 95.2]; [Number 3998.5; Number 94.8]]%float |}.

Definition two_row_file : UploadedFile (F := Binary64) :=
  {| name := "two_rows.csv"; read_csv := fun _ => Some two_row_table |}.

(** The sidebar as the script opens it: one header row skipped, the
    window 400..4000, no normalization, no stacking, and every per-file
    widget left at the value the script proposes. *)
Definition default_config `{Float64} : Config :=
  {| skip_rows := 1;
     x_max_limit := lit 4000;
     x_min_limit := lit 400;
     normalize_option := false;
     stack_mode := false;
     separacion_vertical := lit 0.5;
     font_size_axis := 12;
     font_size_legend := 9;
     loc_legend := "best";
     text_input := fun _ proposed => proposed;
     color_picker := fun _ proposed => proposed;
     selectbox := fun _ => "-" |}.

(** The same sidebar with the normalization checkbox set. *)
Definition with_normalize `{Float64} (cfg : Config) (checked : bool) : Config :=
  {| skip_rows := skip_rows cfg;
     x_max_limit := x_max_limit cfg;
     x_min_limit := x_min_limit cfg;
     normalize_option := checked;
     stack_mode := stack_mode cfg;
     separacion_vertical := separacion_vertical cfg;
     font_size_axis := font_size_axis cfg;
     font_size_legend := font_size_legend cfg;
     loc_legend := loc_legend cfg;
     text_input := text_input cfg;
     color_picker := color_picker cfg;
     selectbox := selectbox cfg |}.

(** One absorption band at 2000 cm-1, the rows not in order. *)
Definition band_table : DataFrame (F := Binary64) :=
  {| columns := ["Wavenumber (cm-1)"; "%T"];
     rows := [[Number 1000; Number 80]; [Number 3000; Number 90];
              [Number 2000; Number 20]]%float |}.

Definition band_file : UploadedFile (F := Binary64) :=
  {| name := "band.csv"; read_csv := fun _ => Some band_table |}.

(** Two good rows, both above the window 400..4000. *)
Definition far_table : DataFrame (F := Binary64) :=
  {| columns := ["Wavenumber (cm-1)"; "%T"];
     rows := [[Number 5000; Number 90]; [Number 4500; Number 91]]%float |}.

Definition far_file : UploadedFile (F := Binary64) :=
  {| name := "far.csv"; read_csv := fun _ => Some far_table |}.

(** No row with two numbers: the wavenumber column was read as text,
    and holds a word in the first row; the transmittance of the second
    row is an empty field. *)
Definition blank_table : DataFrame (F := Binary64) :=
  {| columns := ["Wavenumber (cm-1)"; "%T"];
     rows := [[Text "error"; Number 95.2]; [Text "4000"; Missing]]%float |}.

Definition blank_file : UploadedFile (F := Binary64) :=
  {| name := "blank.csv"; read_csv := fun _ => Some blank_table |}.

(** A third column of remarks, empty in the second row. *)
Definition noted_table : DataFrame (F := Binary64) :=
  {| columns := ["Wavenumber (cm-1)"; "%T"; "note"];
     rows := [[Number 4000; Number 95.2; Text "ok"];
              [Number 3998.5; Number 94.8; Missing]]%float |}.

Definition noted_file : UploadedFile (F := Binary64) :=
  {| name := "noted.csv"; read_csv := fun _ => Some noted_table |}.

(** A third column called [Y] next to the two recognised ones: after
    the renaming two columns are labelled [y]. *)
Definition two_y_table : DataFrame (F := Binary64) :=
  {| columns := ["Wavenumber (cm-1)"; "%T"; "Y"];
     rows := [[Number 3000; Number 90; Number 1]; [Number 2000; Number 20; Number 2];
              [Number 1000; Number 80; Number 3]]%float |}.

Definition two_y_file : UploadedFile (F := Binary64) :=
  {| name := "two_y.csv"; read_csv := fun _ => Some two_y_table |}.

(** One column recognised both as wavenumber and as transmittance, and a
    column of text called [x]. *)
Definition text_x_table : DataFrame (F := Binary64) :=
  {| columns := ["wave trans"; "x"];
     rows := [[Number 1; Text "a"]; [Number 2; Text "b"]]%float |}.

Definition text_x_file : UploadedFile (F := Binary64) :=
  {| name := "text_x.csv"; read_csv := fun _ => Some text_x_table |}.

(** Bytes that [pd.read_csv] cannot parse. *)
Definition garbage_file : UploadedFile (F := Binary64) :=
  {| name := "garbage.bin"; read_csv := fun _ => None |}.

(** Binary64 values at the edges of the format: both zeros, the
    smallest subnormals, the smallest normal number, the largest finite
    numbers, the infinities and NaN, with a few ordinary values. *)
Definition binary64_edge_values : list float :=
  [0; -0; 1; -1; 0.5; 3; 0.1; 0.3; 95.2; 5e-324; -5e-324; 1e-320;
   2.2250738585072014e-308; 1e308; -1e308; 1.7976931348623157e308;
   -1.7976931348623157e308; infinity; neg_infinity; nan]%float.

(** The page of a run that ended. *)
Definition the_page `{Float64} (run : option Page) : Page :=
  match run with
  | Some page => page
  | None => {| shown := []; plot_data := []; all_peaks_data := [] |}
  end.

(** The pages of three runs, evaluated: the band file alone, with
    normalization off and on, and the two-row file alone. *)
Definition band_page : Page (F := Binary64) :=
  Eval vm_compute in the_page (main decimal_to_float default_config [band_file]).

Definition band_page_normalized : Page (F := Binary64) :=
  Eval vm_compute in
    the_page (main decimal_to_float (with_normalize default_config true) [band_file]).

(** The record the band of [band_file] gives without normalization. *)
Definition band_record : PeakRecord (F := Binary64) :=
  {| Serie := "band";
     Numero_de_Onda := 2000%float;
     Transmitancia_Original := 20%float;
     Archivo_Origen := "band.csv" |}.

Definition two_row_page : Page (F := Binary64) :=
  Eval vm_compute in the_page (main decimal_to_float default_config [two_row_file]).

(** ** The comparisons alone *)

(** The part of [Float64Laws] that speaks of [<], [<=] and [==] only:
    on the values that are not NaN they are one total order, and a NaN
    compares false with everything.  Unlike the facts about [-] and [/],
    these are proved for binary64 as well as for the rationals. *)
Class OrderLaws (F : Float64) : Prop := {
  ord_trans : forall a b c : num, fle a b = true -> fle b c = true -> fle a c = true;
  ord_total : forall a b : num,
    fle a a = true -> fle b b = true -> fle a b = true \/ fle b a = true;
  ord_ordered : forall a b : num, fle a b = true -> fle a a = true /\ fle b b = true;
  ord_feq : forall a b : num, feq a b = fle a b && fle b a;
  ord_flt : forall a b : num, flt a b = fle a b && negb (fle b a)
}.

(** ** The entry of a file *)

(** The dictionary the file loop appends to [plot_data] for the file at
    position [i] whose loaded frame is [df0]. *)
Definition plot_entry `{Float64} (cfg : Config) (i : nat) (file : UploadedFile)
    (df0 : Frame) : PlotItem :=
  {| df := scaled cfg (apply_mask cfg df0);
     label := text_input cfg i (rsplit_dot_head (name file));
     color := color_picker cfg i
                (nth (i mod List.length default_colors) default_colors "");
     linestyle := selectbox cfg i;
     filename := name file |}.

(** ** Widget keys *)

(** [str(i)] for a position [i]: its decimal digits. *)
Definition str_of_nat (i : nat) : string := NilEmpty.string_of_uint (Nat.to_uint i).

(** The [key=] arguments of the three widgets in the expander of the file
    at position [i]: [f"lbl_{i}"], [f"clr_{i}"] and [f"lst_{i}"]. *)
Definition expander_keys (i : nat) : list string :=
  [("lbl_" ++ str_of_nat i)%string; ("clr_" ++ str_of_nat i)%string;
   ("lst_" ++ str_of_nat i)%string].

Section WidgetKeys.

Context {F : Float64}.

Variable to_float : string -> option num.

(** The keys a run of the file loop registers, from position [i] on: the
    expander and its widgets are reached only for a file that becomes an
    entry of [plot_data]. *)
Fixpoint widget_keys (cfg : Config) (i : nat) (uploaded_files : list UploadedFile)
  : list string :=
  match uploaded_files with
  | [] => []
  | file :: rest =>
      (if processed to_float cfg file then expander_keys i else [])
      ++ widget_keys cfg (S i) rest
  end.

End WidgetKeys.

(** ** More example inputs *)

(** A single column, whose label reads both as wavenumber and as
    transmittance. *)
Definition one_column_table : DataFrame (F := Binary64) :=
  {| columns := ["Wavenumber %T"];
     rows := [[Number 4000]; [Number 3998.5]]%float |}.

Definition one_column_file : UploadedFile (F := Binary64) :=
  {| name := "one_column.csv"; read_csv := fun _ => Some one_column_table |}.

(** Two columns, the first of which carries both keywords. *)
Definition double_role_table : DataFrame (F := Binary64) :=
  {| columns := ["Wave Trans"; "Intensity"];
     rows := [[Number 4000; Number 95.2]; [Number 3998.5; Number 94.8]]%float |}.

Definition double_role_file : UploadedFile (F := Binary64) :=
  {| name := "double_role.csv"; read_csv := fun _ => Some double_role_table |}.

(** A delimiter at the end of every line: a third column without a
    value in any row. *)
Definition trailing_table : DataFrame (F := Binary64) :=
  {| columns := ["Wavenumber (cm-1)"; "%T"; "Unnamed: 2"];
     rows := [[Number 4000; Number 95.2; Missing];
              [Number 3998.5; Number 94.8; Missing]]%float |}.

Definition trailing_file : UploadedFile (F := Binary64) :=
  {| name := "trailing.csv"; read_csv := fun _ => Some trailing_table |}.

(** The wavenumber label twice, in two spellings. *)
Definition repeated_table : DataFrame (F := Binary64) :=
  {| columns := ["CM-1"; "cm-1 "; "%T"];
     rows := [[Number 4000; Number 4000; Number 95.2];
              [Number 3998.5; Number 3998.5; Number 94.8]]%float |}.

Definition repeated_file : UploadedFile (F := Binary64) :=
  {| name := "repeated.csv"; read_csv := fun _ => Some repeated_table |}.

(** The same sidebar with other limits of the window. *)
Definition with_window `{Float64} (cfg : Config) (x_max x_min : num) : Config :=
  {| skip_rows := skip_rows cfg;
     x_max_limit := x_max;
     x_min_limit := x_min;
     normalize_option := normalize_option cfg;
     stack_mode := stack_mode cfg;
     separacion_vertical := separacion_vertical cfg;
     font_size_axis := font_size_axis cfg;
     font_size_legend := font_size_legend cfg;
     loc_legend := loc_legend cfg;
     text_input := text_input cfg;
     color_picker := color_picker cfg;
     selectbox := selectbox cfg |}.

(** The window turned round: 400 as the upper limit, 4000 as the lower. *)
Definition inverted_config : Config (F := Binary64) :=
  with_window default_config (lit 400) (lit 4000).

(** The page of the band file and an unreadable file under the inverted
    window, evaluated. *)
Definition inverted_page : Page (F := Binary64) :=
  Eval vm_compute in
    the_page (main decimal_to_float inverted_config [band_file; garbage_file]).

(** ** The definitions on examples *)

Example literal_binary64 :
  float_of_Q 0.02 = 0.02%float /\ float_of_Q 0.5 = 0.5%float /\
  float_of_Q (-4000.25) = (-4000.25)%float /\ float_of_Q 1e308 = 1e308%float /\
  float_of_Q 1e-320 = 1e-320%float /\ float_of_Q 1e400 = infinity /\
  float_of_Q 0.1 = 0.1%float /\ float_of_Q (1 # 3) = 0.3333333333333333%float /\
  float_of_Q 9007199254740993 = 9007199254740992%float /\
  float_of_Q 9007199254740995 = 9007199254740996%float.
Proof. vm_compute. repeat split; reflexivity. Qed.

Example round_binary64 :
  float_round 2.675 2 = 2.67%float /\ float_round 0.5 0 = 0%float /\
  float_round 1.5 0 = 2%float /\ float_round 1234.56785 4 = 1234.5678%float /\
  float_round (-0.00001) 4 = (-0)%float /\ float_round 95.2 4 = 95.2%float.
Proof. vm_compute. repeat split; reflexivity. Qed.

Example round_exact :
  Qeq_bool (Qround_nd 2.675 2) 2.68 = true /\
  Qeq_bool (Qround_nd 2.665 2) 2.66 = true /\
  Qeq_bool (Qround_nd (-1.23456) 4) (-1.2346) = true.
Proof. vm_compute. repeat split; reflexivity. Qed.

Example strings_by_example :
  lower "  Wavenumber (CM-1) " = "  wavenumber (cm-1) " /\
  strip "  %T  " = "%T" /\ strip "   " = "" /\
  contains "cm-1" "wavenumber (cm-1)" = true /\
  contains "tra" "abs" = false /\
  rsplit_dot_head "run.01.csv" = "run.01" /\ rsplit_dot_head "spectrum" = "spectrum".
Proof. vm_compute. repeat split; reflexivity. Qed.

Example plain_decimal_by_example :
  plain_decimal "-12.5" = Some (-25 # 2)%Q /\ plain_decimal "400" = Some (400 # 1)%Q /\
  plain_decimal "error" = None /\ plain_decimal "" = None /\ plain_decimal "1.2.3" = None.
Proof. vm_compute. repeat split; reflexivity. Qed.

Example load_two_rows :
  load_ftir_data decimal_to_float two_row_file 0 =
  Some (Usable [ {| x_val := 4000.0; y_val := 95.2 |};
                 {| x_val := 3998.5; y_val := 94.8 |} ]%float).
Proof. reflexivity. Qed.

Example detect_two_bands :
  find_ftir_peaks (F := Binary64)
    [10; 9; 8; 7; 6; 5; 4; 3; 2; 1]%float
    [1; 1; 1; 0.2; 1; 1; 1; 0.3; 1; 1]%float 0.5%float
  = Some ([7; 3], [0.2; 0.3])%float.
Proof. vm_compute. reflexivity. Qed.

(** A flat-topped maximum is reported once, at the middle of its plateau
    (rounded down); a plateau touching the border is none. *)
Example detect_plateaus :
  find_peaks (F := Exact) [1; 2; 2; 2; 1; 3; 3; 0; 5; 5]%Q 0.5%Q = [2; 5].
Proof. vm_compute. reflexivity. Qed.

Example normalize_by_example :
  normalize_data (F := Binary64) [1; 3; 2]%float = [0; 1; 0.5]%float /\
  normalize_data (F := Binary64) [7; 7; 7]%float = [7; 7; 7]%float /\
  normalize_data (F := Binary64) [] = [].
Proof. vm_compute. repeat split; reflexivity. Qed.

(** The laws of [Float64Laws], tried on every triple of edge values. *)
Example binary64_laws_on_edge_values :
  laws_hold_on (H := Binary64) binary64_edge_values = true.
Proof. vm_compute. reflexivity. Qed.

(** ** Facts about lists used below *)

Lemma filter_Subsequence {A : Type} (p : A -> bool) (l : list A) :
  Subsequence (filter p l) l.
Proof.
  induction l as [|a l IH]; simpl.
  - constructor.
  - destruct (p a); now constructor.
Qed.

Lemma filter_idempotent {A : Type} (p : A -> bool) (l : list A) :
  filter p (filter p l) = filter p l.
Proof.
  induction l as [|a l IH]; simpl; [reflexivity|].
  destruct (p a) eqn:Hp; simpl; [rewrite Hp, IH|]; auto.
Qed.

Lemma half_sum_le (i j : nat) : i <= j -> (i + j) / 2 <= j.
Proof.
  intros Hij.
  pose proof (Nat.div_mod_eq (i + j) 2).
  pose proof (Nat.mod_upper_bound (i + j) 2).
  lia.
Qed.

Lemma iloc_in_range {A : Type} (s : list A) (idx : list nat) :
  Forall (fun i => i < List.length s) idx -> exists vs, iloc s idx = Some vs.
Proof.
  induction 1 as [|i idx Hi _ [vs IH]]; simpl.
  - now exists [].
  - destruct (nth_error s i) as [a|] eqn:Ha.
    + rewrite IH. now exists (a :: vs).
    + apply nth_error_None in Ha. lia.
Qed.

(** Selecting the same positions from two columns of one frame selects
    whole rows of it. *)
Lemma iloc_columns {A B C : Type} (f : A -> B) (g : A -> C) (l : list A) :
  forall (idx : list nat) (bs : list B) (cs : list C),
  iloc (map f l) idx = Some bs -> iloc (map g l) idx = Some cs ->
  Forall (fun bc => exists a, In a l /\ bc = (f a, g a)) (combine bs cs).
Proof.
  induction idx as [|i idx IH]; simpl; intros bs cs Hb Hc.
  - injection Hb as <-. constructor.
  - rewrite !nth_error_map in Hb, Hc.
    destruct (nth_error l i) as [a|] eqn:Ha; simpl in *; [|discriminate].
    destruct (iloc (map f l) idx) as [bs'|]; [|discriminate].
    destruct (iloc (map g l) idx) as [cs'|]; [|discriminate].
    injection Hb as <-. injection Hc as <-. simpl. constructor.
    + exists a. split; [eapply nth_error_In; eauto | reflexivity].
    + now apply IH.
Qed.

Section PipelineFacts.

Context {F : Float64}.

Variable to_float : string -> option num.

(** ** The detector stays inside the signal *)

Lemma plateau_end_bounds (x : list num) (i i_max : nat) :
  forall fuel i_ahead,
  i_ahead <= plateau_end x i i_max i_ahead fuel /\
  plateau_end x i i_max i_ahead fuel <= Nat.max i_ahead i_max.
Proof.
  induction fuel as [|fuel IH]; intros i_ahead; simpl; [lia|].
  destruct (i_ahead <? i_max) eqn:Hlt; simpl; [|lia].
  apply Nat.ltb_lt in Hlt.
  destruct (feq _ _); [|lia].
  specialize (IH (S i_ahead)). lia.
Qed.

Lemma local_maxima_loop_below (x : list num) (i_max : nat) :
  forall fuel i,
  Forall (fun peak => peak < i_max) (local_maxima_loop x i_max i fuel).
Proof.
  induction fuel as [|fuel IH]; intros i; cbn [local_maxima_loop]; [constructor|].
  destruct (i <? i_max) eqn:Hlt; [|constructor].
  apply Nat.ltb_lt in Hlt.
  destruct (flt (at_index x (i - 1)) (at_index x i)); [|apply IH].
  destruct (flt _ _); [|apply IH].
  constructor; [|apply IH].
  pose proof (plateau_end_bounds x i i_max i_max (i + 1)) as [Hlo Hhi].
  pose proof (half_sum_le i (plateau_end x i i_max (i + 1) i_max - 1)).
  lia.
Qed.

Lemma find_peaks_in_range (x : list num) (prominence : num) :
  Forall (fun peak => peak < List.length x) (find_peaks x prominence).
Proof.
  unfold find_peaks, local_maxima_1d.
  apply Forall_forall. intros peak Hin.
  apply filter_In in Hin as [Hin _].
  pose proof (local_maxima_loop_below x (List.length x - 1) (List.length x) 1) as Hall.
  rewrite Forall_forall in Hall. specialize (Hall _ Hin). lia.
Qed.

(** The fuel of the two loops never runs out: more fuel changes nothing. *)
Lemma plateau_end_fuel (x : list num) (i i_max : nat) :
  forall fuel fuel' i_ahead,
  i_max - i_ahead <= fuel -> i_max - i_ahead <= fuel' ->
  plateau_end x i i_max i_ahead fuel = plateau_end x i i_max i_ahead fuel'.
Proof.
  induction fuel as [|fuel IH]; intros fuel' i_ahead H1 H2.
  - destruct fuel' as [|fuel']; simpl; [reflexivity|].
    destruct (i_ahead <? i_max) eqn:Hlt; simpl; [|reflexivity].
    apply Nat.ltb_lt in Hlt. lia.
  - destruct fuel' as [|fuel']; simpl.
    + destruct (i_ahead <? i_max) eqn:Hlt; simpl; [|reflexivity].
      apply Nat.ltb_lt in Hlt. lia.
    + destruct (i_ahead <? i_max) eqn:Hlt; simpl; [|reflexivity].
      destruct (feq _ _); [|reflexivity].
      apply IH; lia.
Qed.

Lemma local_maxima_loop_fuel (x : list num) (i_max : nat) :
  forall fuel fuel' i,
  i_max - i <= fuel -> i_max - i <= fuel' ->
  local_maxima_loop x i_max i fuel = local_maxima_loop x i_max i fuel'.
Proof.
  induction fuel as [|fuel IH]; intros fuel' i H1 H2.
  - destruct fuel' as [|fuel']; cbn [local_maxima_loop]; [reflexivity|].
    destruct (i <? i_max) eqn:Hlt; [|reflexivity].
    apply Nat.ltb_lt in Hlt. lia.
  - destruct fuel' as [|fuel']; cbn [local_maxima_loop].
    + destruct (i <? i_max) eqn:Hlt; [|reflexivity].
      apply Nat.ltb_lt in Hlt. lia.
    + destruct (i <? i_max) eqn:Hlt; [|reflexivity].
      apply Nat.ltb_lt in Hlt.
      pose proof (plateau_end_bounds x i i_max i_max (i + 1)) as [Hlo Hhi].
      destruct (flt (at_index x (i - 1)) (at_index x i)); [|apply IH; lia].
      destruct (flt _ _); [f_equal|]; apply IH; lia.
Qed.

(** ** Degenerate signals *)

(** C9.  On a signal of fewer than three points (the empty one
    included) [find_ftir_peaks] raises nothing and returns no band,
    whatever the prominence and whatever the [x] column. *)
Theorem find_ftir_peaks_short_signal (x y : list num) (prominence : num) :
  List.length y < 3 -> find_ftir_peaks x y prominence = Some ([], []).
Proof.
  intros Hlen. unfold find_ftir_peaks, find_peaks, local_maxima_1d.
  rewrite length_map.
  assert (Hloop : forall s fuel,
             local_maxima_loop s (List.length y - 1) 1 fuel = []).
  { intros s [|fuel]; cbn [local_maxima_loop]; [reflexivity|].
    destruct (1 <? List.length y - 1) eqn:Hlt; [|reflexivity].
    apply Nat.ltb_lt in Hlt. lia. }
  rewrite Hloop. reflexivity.
Qed.

(** ** The wavenumber window *)

(** C6.  Every wavenumber that passes the mask lies between the two
    limits, both included; the rows that pass are exactly the rows of
    the frame inside the window, in their order; and masking a second
    time changes nothing. *)
Theorem apply_mask_window (cfg : Config) (df0 : Frame) :
  Forall (fun v => fle (x_min_limit cfg) v = true /\ fle v (x_max_limit cfg) = true)
         (col_x (apply_mask cfg df0)) /\
  (forall r, In r (apply_mask cfg df0) <->
             In r df0 /\ fle (x_min_limit cfg) (x_val r) = true
                      /\ fle (x_val r) (x_max_limit cfg) = true) /\
  Subsequence (apply_mask cfg df0) df0 /\
  apply_mask cfg (apply_mask cfg df0) = apply_mask cfg df0.
Proof.
  assert (Hmask : forall r, mask cfg r = true <->
            fle (x_min_limit cfg) (x_val r) = true /\
            fle (x_val r) (x_max_limit cfg) = true).
  { intros r. unfold mask, in_window, fge. rewrite andb_true_iff. tauto. }
  unfold apply_mask, col_x. repeat split.
  - apply Forall_forall. intros v Hv.
    apply in_map_iff in Hv as (r & <- & Hr).
    apply filter_In in Hr as [_ Hr]. now apply Hmask.
  - apply filter_In in H. tauto.
  - apply filter_In in H as [_ H]. now apply Hmask in H.
  - apply filter_In in H as [_ H]. now apply Hmask in H.
  - intros (Hin & Hlo & Hhi). apply filter_In. split; [assumption|].
    apply Hmask. now split.
  - apply filter_Subsequence.
  - apply filter_idempotent.
Qed.

(** ** The two loops *)

Lemma process_file_cases (cfg : Config) (i : nat) (file : UploadedFile)
    (items : list PlotItem) (evs : list Event) :
  (load_fails to_float cfg file = true /\ empty_window to_float cfg file = false /\
   processed to_float cfg file = false /\ raises to_float cfg file = false /\
   process_file to_float cfg i file (items, evs)
   = Some (items, evs ++ [st_error (name file)])) \/
  (load_fails to_float cfg file = false /\ empty_window to_float cfg file = true /\
   processed to_float cfg file = false /\ raises to_float cfg file = false /\
   process_file to_float cfg i file (items, evs)
   = Some (items, evs ++ [st_warning (name file)])) \/
  (load_fails to_float cfg file = false /\ empty_window to_float cfg file = false /\
   processed to_float cfg file = true /\ raises to_float cfg file = false /\
   exists item df0,
     load_ftir_data to_float file (skip_rows cfg) = Some (Usable df0) /\
     df item = scaled cfg (apply_mask cfg df0) /\
     filename item = name file /\
     process_file to_float cfg i file (items, evs)
     = Some (items ++ [item], evs ++ [st_expander (name file) (i =? 0)])) \/
  (load_fails to_float cfg file = false /\ empty_window to_float cfg file = false /\
   processed to_float cfg file = false /\ raises to_float cfg file = true /\
   process_file to_float cfg i file (items, evs) = None).
Proof.
  unfold load_fails, empty_window, processed, raises, process_file.
  destruct (load_ftir_data to_float file (skip_rows cfg))
    as [[[|r df0] | [|n] | [|v xs]]|] eqn:Hload; cbv beta iota.
  - left. now repeat split.
  - destruct (apply_mask cfg (r :: df0)) as [|r' df1] eqn:Hmask.
    + right; left. now repeat split.
    + right; right; left. repeat split. eexists; exists (r :: df0).
      split; [reflexivity|]. split; [|split; [|reflexivity]]; cbn [df filename].
      * rewrite Hmask. reflexivity.
      * reflexivity.
  - left. now repeat split.
  - right; right; right. now repeat split.
  - left. now repeat split.
  - destruct (filter (in_window cfg) (v :: xs)).
    + right; left. now repeat split.
    + right; right; right. now repeat split.
  - left. now repeat split.
Qed.

(** What a file loop that ends has built. *)
Lemma file_loop_spec (cfg : Config) :
  forall files i items evs st',
  file_loop to_float cfg i files (items, evs) = Some st' ->
  exists items' evs',
    st' = (items ++ items', evs ++ evs') /\
    map filename items' = map name (filter (processed to_float cfg) files) /\
    errors evs' = map name (filter (load_fails to_float cfg) files) /\
    warnings evs' = map name (filter (empty_window to_float cfg) files) /\
    forallb is_notice evs' = true /\
    Forall (fun item => exists file df0,
              In file files /\
              load_ftir_data to_float file (skip_rows cfg) = Some (Usable df0) /\
              df item = scaled cfg (apply_mask cfg df0) /\
              filename item = name file) items'.
Proof.
  induction files as [|file files IH]; intros i items evs st' Hloop.
  - injection Hloop as <-. exists [], []. simpl. rewrite !app_nil_r.
    repeat split; constructor.
  - cbn [file_loop filter] in *.
    assert (Hin : forall (P : UploadedFile -> Frame -> PlotItem -> Prop) its,
               Forall (fun it => exists f d, In f files /\ P f d it) its ->
               Forall (fun it => exists f d, In f (file :: files) /\ P f d it) its).
    { intros P its. apply Forall_impl. intros it (f & d & Hf' & HP).
      exists f, d. split; [now right | exact HP]. }
    destruct (process_file_cases cfg i file items evs)
      as [(Hf & He & Hp & Hr & Hstep) | [(Hf & He & Hp & Hr & Hstep)
         | [(Hf & He & Hp & Hr & item & df0 & Hl & Hd & Hn & Hstep)
         | (Hf & He & Hp & Hr & Hstep)]]];
      rewrite Hstep in Hloop; [| | |discriminate]; rewrite Hf, He, Hp;
      apply IH in Hloop as (it & ev & -> & P & R & W & N & A).
    + exists it, (st_error (name file) :: ev).
      rewrite <- app_assoc. cbn [app map errors warnings flat_map forallb is_notice andb].
      repeat split; try assumption.
      * fold (errors ev). now rewrite R.
      * now apply (Hin (fun f d it => _ /\ _ /\ _)).
    + exists it, (st_warning (name file) :: ev).
      rewrite <- app_assoc. cbn [app map errors warnings flat_map forallb is_notice andb].
      repeat split; try assumption.
      * fold (warnings ev). now rewrite W.
      * now apply (Hin (fun f d it => _ /\ _ /\ _)).
    + exists (item :: it), (st_expander (name file) (i =? 0) :: ev).
      rewrite <- !app_assoc. cbn [app map errors warnings flat_map forallb is_notice andb].
      repeat split; try assumption.
      * now rewrite Hn, P.
      * constructor.
        -- exists file, df0. split; [now left | now repeat split].
        -- now apply (Hin (fun f d it => _ /\ _ /\ _)).
Qed.

(** The file loop ends when no frame makes it raise, and only then. *)
Lemma file_loop_runs (cfg : Config) :
  forall files i st,
  forallb (fun file => negb (raises to_float cfg file)) files = true ->
  exists st', file_loop to_float cfg i files st = Some st'.
Proof.
  induction files as [|file files IH]; intros i [items evs] Hok.
  - now exists (items, evs).
  - cbn [forallb] in Hok. apply andb_true_iff in Hok as [Hfile Hok].
    apply negb_true_iff in Hfile. cbn [file_loop].
    destruct (process_file_cases cfg i file items evs)
      as [(_ & _ & _ & _ & ->) | [(_ & _ & _ & _ & ->)
         | [(_ & _ & _ & _ & item & df0 & _ & _ & _ & ->)
         | (_ & _ & _ & Hr & _)]]];
      try (now apply IH); congruence.
Qed.

Lemma file_loop_raises (cfg : Config) :
  forall files i st st',
  file_loop to_float cfg i files st = Some st' ->
  forallb (fun file => negb (raises to_float cfg file)) files = true.
Proof.
  induction files as [|file files IH]; intros i [items evs] st' Hloop; [reflexivity|].
  cbn [file_loop forallb] in *.
  destruct (process_file_cases cfg i file items evs)
    as [(_ & _ & _ & Hr & Hstep) | [(_ & _ & _ & Hr & Hstep)
       | [(_ & _ & _ & Hr & item & df0 & _ & _ & _ & Hstep)
       | (_ & _ & _ & Hr & Hstep)]]];
    rewrite Hstep in Hloop; try discriminate; rewrite Hr; cbn [negb andb];
    eapply IH; eassumption.
Qed.

Lemma find_ftir_peaks_total (x y : list num) (prominence : num) :
  List.length x = List.length y ->
  exists peaks_x peaks_y, find_ftir_peaks x y prominence = Some (peaks_x, peaks_y).
Proof.
  intros Hlen. unfold find_ftir_peaks.
  set (peaks := find_peaks _ prominence).
  assert (Hy : Forall (fun i => i < List.length y) peaks).
  { pose proof (find_peaks_in_range (map (fun v => fmul (of_int (-1)) v) y) prominence) as H.
    now rewrite length_map in H. }
  destruct (iloc_in_range y peaks Hy) as [py ->].
  rewrite <- Hlen in Hy.
  destruct (iloc_in_range x peaks Hy) as [px ->].
  now exists px, py.
Qed.

Lemma plot_item_spec (cfg : Config) (idx : nat) (item : PlotItem)
    (drawn : list Line) (peaks : list PeakRecord) :
  plot_item cfg idx item (drawn, peaks)
  = Some (drawn ++ [plot_line cfg idx item], peaks ++ item_peaks cfg item).
Proof.
  unfold plot_item, item_peaks.
  destruct (find_ftir_peaks_total (col_x (df item)) (col_y (df item)) (prom cfg))
    as (px & py & ->); [|reflexivity].
  unfold col_x, col_y. now rewrite !length_map.
Qed.

(** The plot loop never raises: the two columns it hands to the detector
    come from one frame. *)
Lemma plot_loop_spec (cfg : Config) :
  forall items idx drawn peaks,
  plot_loop cfg idx items (drawn, peaks)
  = Some (drawn ++ lines_from cfg idx items,
          peaks ++ flat_map (item_peaks cfg) items).
Proof.
  induction items as [|item items IH]; intros idx drawn peaks.
  - simpl. now rewrite !app_nil_r.
  - cbn [plot_loop lines_from flat_map]. rewrite plot_item_spec, IH.
    now rewrite <- !app_assoc.
Qed.

(** The final state of a script that ran to its end is the one the two
    loops build. *)
Lemma main_spec (cfg : Config) (files : list UploadedFile) (page : Page) :
  main to_float cfg files = Some page ->
  exists notices,
    file_loop to_float cfg 0 files ([], []) = Some (plot_data page, notices) /\
    all_peaks_data page = flat_map (item_peaks cfg) (plot_data page) /\
    (plot_data page = [] ->
     shown page = match files with
                  | [] => [st_info]
                  | _ => notices
                  end) /\
    (plot_data page <> [] ->
     shown page = notices
                  ++ st_pyplot (figure cfg (lines_from cfg 0 (plot_data page)))
                  :: exports (figure cfg (lines_from cfg 0 (plot_data page)))
                             (all_peaks_data page)).
Proof.
  unfold main. destruct files as [|file files].
  - intros [= <-]. exists []. simpl. repeat split; congruence.
  - destruct (file_loop to_float cfg 0 (file :: files) ([], []))
      as [[[|item items] notices]|]; [| |discriminate].
    + intros [= <-]. exists notices. simpl. repeat split; congruence.
    + rewrite plot_loop_spec. intros [= <-]. exists notices.
      cbn [plot_data all_peaks_data shown app]. repeat split; congruence.
Qed.

(** The script runs to its end when no frame makes the file loop raise. *)
Lemma main_runs (cfg : Config) (files : list UploadedFile) :
  forallb (fun file => negb (raises to_float cfg file)) files = true ->
  exists page, main to_float cfg files = Some page.
Proof.
  intros Hok. unfold main. destruct files as [|file files]; [eauto|].
  destruct (file_loop_runs cfg (file :: files) 0 ([], []) Hok) as [[items notices] ->].
  destruct items as [|item items]; [eauto|].
  rewrite plot_loop_spec. eauto.
Qed.

Lemma errors_app (evs evs' : list Event) : errors (evs ++ evs') = errors evs ++ errors evs'.
Proof. unfold errors. apply flat_map_app. Qed.

Lemma warnings_app (evs evs' : list Event) :
  warnings (evs ++ evs') = warnings evs ++ warnings evs'.
Proof. unfold warnings. apply flat_map_app. Qed.

Lemma exports_silent (fig : Figure) (peaks : list PeakRecord) :
  errors (st_pyplot fig :: exports fig peaks) = [] /\
  warnings (st_pyplot fig :: exports fig peaks) = [].
Proof. destruct peaks; split; reflexivity. Qed.

Lemma four_ways (cfg : Config) (files : list UploadedFile) :
  List.length (filter (processed to_float cfg) files)
  + List.length (filter (load_fails to_float cfg) files)
  + List.length (filter (empty_window to_float cfg) files)
  + List.length (filter (raises to_float cfg) files)
  = List.length files.
Proof.
  induction files as [|file files IH]; [reflexivity|].
  cbn [filter].
  destruct (process_file_cases cfg 0 file [] [])
    as [(-> & -> & -> & -> & _) | [(-> & -> & -> & -> & _)
       | [(-> & -> & -> & -> & _) | (-> & -> & -> & -> & _)]]];
    cbn [List.length]; lia.
Qed.

Lemma filter_none {A : Type} (p : A -> bool) (l : list A) :
  forallb (fun a => negb (p a)) l = true -> filter p l = [].
Proof.
  induction l as [|a l IH]; [reflexivity|]. cbn [forallb filter].
  intros H. apply andb_true_iff in H as [Ha Hl].
  apply negb_true_iff in Ha. rewrite Ha. now apply IH.
Qed.

(** ** Failures stay with their file *)

(** C7 (as amended).  On a batch in which no file's frame makes the
    script raise (no column of text or second column is labelled like
    the standard ones), the script runs to its end.  The entries of
    [plot_data] are, in upload order, the files that load and have a row
    inside the window; every file whose load fails gets one error notice
    naming it, every file that loads but has no row inside the window
    gets one warning naming it, both in upload order.  So of [N] files,
    [K] failing and [E] outside the window, [N - K - E] become series. *)
Theorem file_loop_skips_and_reports (cfg : Config) (files : list UploadedFile) :
  forallb (fun file => negb (raises to_float cfg file)) files = true ->
  exists page,
    main to_float cfg files = Some page /\
    map filename (plot_data page) = map name (filter (processed to_float cfg) files) /\
    errors (shown page) = map name (filter (load_fails to_float cfg) files) /\
    warnings (shown page) = map name (filter (empty_window to_float cfg) files) /\
    List.length (plot_data page)
    + List.length (filter (load_fails to_float cfg) files)
    + List.length (filter (empty_window to_float cfg) files)
    = List.length files.
Proof.
  intros Hok.
  destruct (main_runs cfg files Hok) as [page Hmain].
  destruct (main_spec cfg files page Hmain) as (notices & Hloop & _ & Hnone & Hsome).
  destruct (file_loop_spec cfg files 0 [] [] _ Hloop)
    as (items & evs & [= Hitems Hevs] & Hproc & Herr & Hwarn & _ & _).
  cbn [app] in Hitems, Hevs. subst notices.
  exists page. split; [exact Hmain|].
  assert (Hshown : errors (shown page) = errors evs /\ warnings (shown page) = warnings evs).
  { destruct (plot_data page) as [|it its] eqn:Hpd.
    - rewrite (Hnone eq_refl). destruct files; [|now split].
      simpl in Hloop. assert (Hempty : evs = []) by congruence.
      rewrite Hempty. now split.
    - rewrite Hsome by discriminate. rewrite errors_app, warnings_app.
      destruct (exports_silent (figure cfg (lines_from cfg 0 (it :: its)))
                               (all_peaks_data page)) as [-> ->].
      now rewrite !app_nil_r. }
  destruct Hshown as [-> ->]. rewrite Hitems.
  repeat split; try assumption.
  apply (f_equal (@List.length _)) in Hproc. rewrite !length_map in Hproc.
  rewrite Hproc. pose proof (four_ways cfg files) as H4.
  rewrite (filter_none _ _ Hok) in H4. cbn [List.length] in H4. lia.
Qed.

(** ** Stacking is a display transform *)

Lemma file_loop_with_stacking (cfg : Config) (stacked : bool) (offset_step : num) :
  forall files i st,
  file_loop to_float (with_stacking cfg stacked offset_step) i files st
  = file_loop to_float cfg i files st.
Proof.
  induction files as [|file files IH]; intros i st; [reflexivity|].
  cbn [file_loop].
  change (process_file to_float (with_stacking cfg stacked offset_step) i file st)
    with (process_file to_float cfg i file st).
  destruct (process_file to_float cfg i file st); [apply IH | reflexivity].
Qed.

Lemma item_peaks_with_stacking (cfg : Config) (stacked : bool) (offset_step : num)
    (items : list PlotItem) :
  flat_map (item_peaks (with_stacking cfg stacked offset_step)) items
  = flat_map (item_peaks cfg) items.
Proof. reflexivity. Qed.

Lemma nth_error_lines_from (cfg : Config) :
  forall items idx k item,
  nth_error items k = Some item ->
  nth_error (lines_from cfg idx items) k = Some (plot_line cfg (idx + k) item).
Proof.
  induction items as [|it items IH]; intros idx [|k] item H; try discriminate.
  - injection H as ->. cbn. now rewrite Nat.add_0_r.
  - cbn [lines_from nth_error]. rewrite (IH (S idx) k item H).
    now rewrite Nat.add_succ_r.
Qed.

(** A run raises, or not, whatever the stacking widgets say; and when it
    ends, [plot_data] and the band table do not depend on them. *)
Lemma main_with_stacking (cfg : Config) (files : list UploadedFile)
    (stacked : bool) (offset_step : num) :
  option_map (fun page => (plot_data page, all_peaks_data page))
    (main to_float (with_stacking cfg stacked offset_step) files)
  = option_map (fun page => (plot_data page, all_peaks_data page))
      (main to_float cfg files).
Proof.
  unfold main. destruct files as [|file files]; [reflexivity|].
  rewrite file_loop_with_stacking.
  destruct (file_loop to_float cfg 0 (file :: files) ([], []))
    as [[[|item items] notices]|]; [reflexivity| |reflexivity].
  rewrite !plot_loop_spec. cbn [option_map plot_data all_peaks_data app].
  now rewrite item_peaks_with_stacking.
Qed.

(** C5.  Two runs on the same files that differ only in the stacking
    checkbox and the separation slider end alike, and build the same
    [plot_data] and the same band table; what stacking changes is the
    drawn line of the entry at position [idx], whose y values are the
    stored ones plus [idx * offset_step] (plus 0 when stacking is off),
    its x values being the stored ones. *)
Theorem stacking_only_shifts_lines (cfg : Config) (files : list UploadedFile)
    (stacked : bool) (offset_step : num) :
  option_map plot_data (main to_float (with_stacking cfg stacked offset_step) files)
  = option_map plot_data (main to_float cfg files) /\
  option_map all_peaks_data (main to_float (with_stacking cfg stacked offset_step) files)
  = option_map all_peaks_data (main to_float cfg files) /\
  forall page' idx item,
    main to_float (with_stacking cfg stacked offset_step) files = Some page' ->
    nth_error (plot_data page') idx = Some item ->
    exists fig line,
      In (st_pyplot fig) (shown page') /\
      nth_error (lines fig) idx = Some line /\
      line_x line = col_x (df item) /\
      line_y line
      = map (fun v => fadd v (if stacked
                              then fmul (of_int (Z.of_nat idx)) offset_step
                              else of_int 0))
            (col_y (df item)).
Proof.
  pose proof (main_with_stacking cfg files stacked offset_step) as Hsame.
  split; [|split].
  - destruct (main to_float (with_stacking cfg stacked offset_step) files),
             (main to_float cfg files); simpl in *; congruence.
  - destruct (main to_float (with_stacking cfg stacked offset_step) files),
             (main to_float cfg files); simpl in *; congruence.
  - intros page' idx item Hmain' Hnth.
    destruct (main_spec _ _ _ Hmain') as (notices & _ & _ & _ & Hshown').
    assert (Hne : plot_data page' <> []).
    { intros E. rewrite E in Hnth. destruct idx; discriminate. }
    specialize (Hshown' Hne).
    eexists; eexists. split; [|split; [|split]].
    + rewrite Hshown'. apply in_or_app. right. left. reflexivity.
    + cbn [lines figure]. apply (nth_error_lines_from _ _ 0 idx item Hnth).
    + reflexivity.
    + cbn [line_y plot_line Nat.add]. apply map_ext. intros v.
      unfold current_offset, offset_value. cbn [stack_mode with_stacking separacion_vertical].
      destruct stacked; reflexivity.
Qed.

(** ** What a band record reports *)

Lemma in_set_col_y (df0 : Frame) (ys : list num) (row : Row) :
  In row (set_col_y df0 ys) ->
  exists row0, In row0 df0 /\ x_val row = x_val row0 /\ In (y_val row) ys.
Proof.
  unfold set_col_y. intros H.
  apply in_map_iff in H as ([r0 v] & <- & Hin).
  exists r0. cbn. split; [eapply in_combine_l; eauto|].
  split; [reflexivity | eapply in_combine_r; eauto].
Qed.

Lemma in_item_peaks (cfg : Config) (item : PlotItem) (rec : PeakRecord) :
  In rec (item_peaks cfg item) ->
  exists row, In row (df item) /\ rec = peak_record item (x_val row, y_val row).
Proof.
  unfold item_peaks.
  destruct (find_ftir_peaks _ _ _) as [[px py]|] eqn:Hfind; [|intros []].
  unfold find_ftir_peaks in Hfind.
  destruct (iloc (col_x (df item)) _) as [px'|] eqn:Hx; [|discriminate].
  destruct (iloc (col_y (df item)) _) as [py'|] eqn:Hy; [|discriminate].
  injection Hfind as <- <-.
  pose proof (iloc_columns x_val y_val (df item) _ _ _ Hx Hy) as Hall.
  rewrite Forall_forall in Hall.
  intros Hin. apply in_map_iff in Hin as (p & <- & Hp).
  destruct (Hall p Hp) as (row & Hrow & ->). now exists row.
Qed.

(** C1 (as amended).  Every record of the band table comes from one row
    of one entry of [plot_data]: its wavenumber is that row's [x] rounded
    to 2 decimals and its signal value that row's stored [y] rounded to
    4 decimals, the [y] to which no offset was added.  The row's [x] is
    the [x] of a row of the loaded file.  Without normalization the row
    is that loaded row itself, so the value reported is the file's own;
    with normalization the stored [y] is a value of the min-max scaled
    column, and that scaled value is what the record reports. *)
Theorem peak_record_reports_stored_row (cfg : Config) (files : list UploadedFile)
    (page : Page) (rec : PeakRecord) :
  main to_float cfg files = Some page ->
  In rec (all_peaks_data page) ->
  exists file df0 row row0,
    In file files /\
    load_ftir_data to_float file (skip_rows cfg) = Some (Usable df0) /\
    In row (scaled cfg (apply_mask cfg df0)) /\
    In row0 df0 /\ x_val row = x_val row0 /\
    (normalize_option cfg = false -> row = row0) /\
    (normalize_option cfg = true ->
     In (y_val row) (normalize_data (col_y (apply_mask cfg df0)))) /\
    Numero_de_Onda rec = round_nd (x_val row) 2 /\
    Transmitancia_Original rec = round_nd (y_val row) 4 /\
    Archivo_Origen rec = name file.
Proof.
  intros Hmain Hrec.
  destruct (main_spec cfg files page Hmain) as (notices & Hloop & Hpk & _ & _).
  destruct (file_loop_spec cfg files 0 [] [] _ Hloop)
    as (items & evs & [= Hitems _] & _ & _ & _ & _ & Hall).
  cbn [app] in Hitems.
  rewrite Hpk, Hitems in Hrec. apply in_flat_map in Hrec as (item & Hitem & Hrec).
  rewrite Forall_forall in Hall.
  destruct (Hall item Hitem) as (file & df0 & Hfile & Hload & Hdf & Hname).
  destruct (in_item_peaks cfg item rec Hrec) as (row & Hrow & ->).
  rewrite Hdf in Hrow.
  assert (Hrow0 : exists row0, In row0 df0 /\ x_val row = x_val row0 /\
            (normalize_option cfg = false -> row = row0) /\
            (normalize_option cfg = true ->
             In (y_val row) (normalize_data (col_y (apply_mask cfg df0))))).
  { unfold scaled in Hrow. destruct (normalize_option cfg).
    - apply in_set_col_y in Hrow as (row0 & Hin0 & Hx & Hy).
      exists row0. apply filter_In in Hin0 as [Hin0 _].
      repeat split; try assumption; [discriminate | intros _; exact Hy].
    - exists row. apply filter_In in Hrow as [Hrow _].
      repeat split; try assumption; try reflexivity. discriminate. }
  destruct Hrow0 as (row0 & Hin0 & Hx & Hraw & Hnorm).
  exists file, df0, row, row0. cbn [peak_record Numero_de_Onda Transmitancia_Original Archivo_Origen].
  repeat split; assumption.
Qed.

(** ** The downloads *)

(** C10.  When the run has at least one entry in [plot_data] and no
    band was detected, the page shows, after the per-file notices, the
    figure with one line per entry and the image download, and nothing
    else: no table download and no table view. *)
Theorem no_band_no_table (cfg : Config) (files : list UploadedFile) (page : Page) :
  main to_float cfg files = Some page ->
  plot_data page <> [] ->
  all_peaks_data page = [] ->
  exists notices fig,
    shown page = notices ++ [st_pyplot fig; download_png fig] /\
    forallb is_notice notices = true /\
    lines fig = lines_from cfg 0 (plot_data page) /\
    (forall df_peaks, ~ In (download_csv df_peaks) (shown page)) /\
    (forall df_peaks, ~ In (st_dataframe df_peaks) (shown page)).
Proof.
  intros Hmain Hne Hnone.
  destruct (main_spec cfg files page Hmain) as (notices & Hloop & _ & _ & Hshown).
  destruct (file_loop_spec cfg files 0 [] [] _ Hloop)
    as (items & evs & [= _ Hevs] & _ & _ & _ & Hnot & _).
  cbn [app] in Hevs. subst notices.
  rewrite (Hshown Hne), Hnone. cbn [exports].
  exists evs, (figure cfg (lines_from cfg 0 (plot_data page))).
  assert (Hev : forall e, In e evs -> is_notice e = true).
  { intros e He. rewrite forallb_forall in Hnot. now apply Hnot. }
  repeat split; try assumption; try reflexivity;
    intros t Hin; apply in_app_or in Hin as [Hin | [Hin | [Hin | []]]];
    try discriminate; apply Hev in Hin; discriminate.
Qed.

(** ** Which rows the loader keeps *)

(** A row outlives the cleaning exactly when, after the two coercions,
    none of its cells is missing, whichever column the cell stands in. *)
Lemma clean_rows_keeps (jw jt : nat) (rs : list (list cell)) (r : list cell) :
  In r (clean_rows to_float jw jt rs) <->
  exists r0, In r0 rs /\
    r = update_nth jt (to_numeric to_float) (update_nth jw (to_numeric to_float) r0) /\
    forall c, In c r -> isna c = false.
Proof.
  unfold clean_rows, dropna. rewrite filter_In, map_map, in_map_iff.
  split.
  - intros [(r0 & <- & Hin) Hall]. exists r0. repeat split; [assumption|].
    intros c Hc. rewrite forallb_forall in Hall.
    now apply negb_true_iff, Hall.
  - intros (r0 & Hin & -> & Hall). split; [now exists r0|].
    apply forallb_forall. intros c Hc. now apply negb_true_iff, Hall.
Qed.

(** ** A table without a valid row *)

(** C8 (as amended).  When the table is read, its columns are settled
    and no row survives the two coercions and [dropna], the loader does
    not fail: it returns the empty frame.  It is the caller's test
    [df is not None and not df.empty] that rejects it, with the error
    notice a failed load gets and no entry in [plot_data]. *)
Theorem empty_frame_is_rejected_by_caller (cfg : Config) (file : UploadedFile)
    (table : DataFrame) (w t : string) (jw jt jx jy i : nat)
    (items : list PlotItem) (evs : list Event) :
  read_csv file (skip_rows cfg) = Some table ->
  select_columns (map (fun c => strip (lower c)) (columns table)) = Some (w, t) ->
  column_index w (map (fun c => strip (lower c)) (columns table)) = Some jw ->
  column_index t (map (fun c => strip (lower c)) (columns table)) = Some jt ->
  column_index "x" (rename w t (map (fun c => strip (lower c)) (columns table))) = Some jx ->
  column_index "y" (rename w t (map (fun c => strip (lower c)) (columns table))) = Some jy ->
  clean_rows to_float jw jt (rows table) = [] ->
  load_ftir_data to_float file (skip_rows cfg) = Some (Usable []) /\
  process_file to_float cfg i file (items, evs)
  = Some (items, evs ++ [st_error (name file)]).
Proof.
  intros Hread Hsel Hw Ht Hx Hy Hrows.
  assert (Hload : load_ftir_data to_float file (skip_rows cfg) = Some (Usable [])).
  { unfold load_ftir_data, standardise. rewrite Hread, Hsel, Hw, Ht, Hx, Hrows.
    unfold column_index in Hy. cbn [column_cells numbers_of].
    destruct (positions "y" _ 0) as [|jy' [|? ?]]; try discriminate.
    reflexivity. }
  split; [exact Hload|].
  unfold process_file. rewrite Hload. reflexivity.
Qed.

End PipelineFacts.

(** ** The rationals obey the laws *)

Lemma ExactLaws : Float64Laws Exact.
Proof.
  constructor; cbn [num fle feq flt fsub fdiv lit finite Exact].
  - intros a b c Hab Hbc. apply Qle_bool_iff in Hab, Hbc. apply Qle_bool_iff.
    eapply Qle_trans; eauto.
  - intros a b _ _. destruct (Qlt_le_dec a b) as [H|H].
    + left. apply Qle_bool_iff. now apply Qlt_le_weak.
    + right. now apply Qle_bool_iff.
  - intros a b _. split; apply Qle_bool_iff; apply Qle_refl.
  - intros a b. destruct (Qeq_bool a b) eqn:He.
    + apply Qeq_bool_iff in He. symmetry. apply andb_true_iff.
      split; apply Qle_bool_iff; rewrite He; apply Qle_refl.
    + symmetry. apply not_true_is_false. intros H.
      apply andb_true_iff in H as [H1 H2]. apply Qle_bool_iff in H1, H2.
      assert (He' : Qeq_bool a b = true)
        by (apply Qeq_bool_iff; now apply Qle_antisym).
      congruence.
  - intros a b. destruct (Qle_bool b a) eqn:Hba; cbn [negb].
    + now rewrite andb_false_r.
    + rewrite andb_true_r. symmetry. apply Qle_bool_iff.
      destruct (Qlt_le_dec a b) as [H|H]; [now apply Qlt_le_weak|].
      apply Qle_bool_iff in H. congruence.
  - intros a _. apply Qle_bool_iff, Qle_refl.
  - intros a _. apply Qeq_bool_iff. ring.
  - intros a b c _ Hab. apply Qle_bool_iff in Hab. apply Qle_bool_iff.
    unfold Qminus. now apply Qplus_le_l.
  - intros a b _ _ Hlt. apply negb_true_iff in Hlt. apply negb_true_iff.
    apply not_true_is_false. intros H. apply Qle_bool_iff in H.
    assert (Hba : Qle_bool b a = true).
    { apply Qle_bool_iff. apply (Qplus_le_l _ _ (- a)%Q).
      setoid_replace (a + - a)%Q with 0%Q by ring. exact H. }
    congruence.
  - intros z d _ _ Hz. apply Qeq_bool_iff in Hz. apply Qeq_bool_iff.
    rewrite Hz. unfold Qdiv. ring.
  - intros d _ Hd. apply Qeq_bool_iff.
    apply negb_true_iff in Hd.
    assert (Hnz : ~ (d == 0)%Q).
    { intros E. assert (Qle_bool d 0 = true) by (apply Qle_bool_iff; rewrite E; apply Qle_refl).
      congruence. }
    unfold Qdiv. now apply Qmult_inv_r.
  - intros a b d _ Hd Hab. apply Qle_bool_iff in Hab. apply Qle_bool_iff.
    apply negb_true_iff in Hd.
    assert (Hpos : (0 < d)%Q).
    { apply Qnot_le_lt. intros H. apply Qle_bool_iff in H. congruence. }
    unfold Qdiv. apply Qmult_le_compat_r; [exact Hab|].
    apply Qlt_le_weak. now apply Qinv_lt_0_compat.
Qed.

#[export] Existing Instance ExactLaws.

(** ** The range of the scaled signal *)

Section ScalingFacts.

Context {F : Float64} {L : Float64Laws F}.
















End ScalingFacts.

(** ** The prominence tiers *)

(** C4 (as amended).  The threshold handed to the detector is the
    literal 0.02 with normalization and the literal 0.5 without; the raw
    threshold is 25 times the normalized one, as decimals and as
    binary64 values. *)
Theorem prominence_tiers `{Float64} (cfg : Config) :
  prom cfg = lit (prom_literal (normalize_option cfg)) /\
  (prom_literal true == 0.02)%Q /\
  (prom_literal false == 0.5)%Q /\
  (prom_literal false == 25 * prom_literal true)%Q /\
  feq (Float64 := Binary64) (lit (prom_literal false))
      (fmul (of_int 25) (lit (prom_literal true))) = true.
Proof. repeat split; reflexivity. Qed.

(** C4 as stated fails: the raw threshold is not 100 times the
    normalized one, since 100 * 0.02 is 2 and not 0.5. *)
Lemma prominence_ratio_is_not_100 :
  ~ (prom_literal false == 100 * prom_literal true)%Q /\
  feq (Float64 := Binary64) (lit (prom_literal false))
      (fmul (of_int 100) (lit (prom_literal true))) = false.
Proof. split; [intros H; discriminate H | reflexivity]. Qed.

(** ** Runs on the example inputs *)

Example run_band_file :
  main decimal_to_float default_config [band_file] = Some band_page /\
  main decimal_to_float (with_normalize default_config true) [band_file]
  = Some band_page_normalized /\
  main decimal_to_float default_config [two_row_file] = Some two_row_page.
Proof. repeat split; reflexivity. Qed.

(** A batch of four: one file unreadable, one outside the window, two
    processed; the processed ones keep their upload order. *)
Example run_mixed_batch :
  let page := the_page (main decimal_to_float default_config
                          [band_file; garbage_file; far_file; two_row_file]) in
  map filename (plot_data page) = ["band.csv"; "two_rows.csv"] /\
  errors (shown page) = ["garbage.bin"] /\
  warnings (shown page) = ["far.csv"] /\
  map Numero_de_Onda (all_peaks_data page) = [2000%float].
Proof. repeat split; reflexivity. Qed.

(** Frames whose labels clash with the standard ones make the run raise:
    with two columns labelled [y] once a row is inside the window, with
    a text column labelled [x] as soon as there is a row. *)
Example run_raises_on_clashing_labels :
  load_ftir_data decimal_to_float two_y_file 1 = Some (TwoY [3000; 2000; 1000]%float) /\
  main decimal_to_float default_config [band_file; two_y_file] = None /\
  load_ftir_data decimal_to_float text_x_file 1 = Some (TextX 2) /\
  main decimal_to_float default_config [text_x_file; band_file] = None.
Proof. repeat split; reflexivity. Qed.

(** C7 as amended, on the batch of four. *)
Lemma file_loop_skips_and_reports_witness :
  exists page : Page (F := Binary64),
    main decimal_to_float default_config
      [band_file; garbage_file; far_file; two_row_file] = Some page /\
    map filename (plot_data page)
    = map name (filter (processed decimal_to_float default_config)
                  [band_file; garbage_file; far_file; two_row_file]) /\
    errors (shown page)
    = map name (filter (load_fails decimal_to_float default_config)
                  [band_file; garbage_file; far_file; two_row_file]) /\
    warnings (shown page)
    = map name (filter (empty_window decimal_to_float default_config)
                  [band_file; garbage_file; far_file; two_row_file]) /\
    List.length (plot_data page)
    + List.length (filter (load_fails decimal_to_float default_config)
                     [band_file; garbage_file; far_file; two_row_file])
    + List.length (filter (empty_window decimal_to_float default_config)
                     [band_file; garbage_file; far_file; two_row_file])
    = List.length [band_file; garbage_file; far_file; two_row_file].
Proof.
  apply (file_loop_skips_and_reports (F := Binary64) decimal_to_float default_config
           [band_file; garbage_file; far_file; two_row_file]).
  reflexivity.
Defined.

(** C9, on the two-row signal. *)
Lemma find_ftir_peaks_short_signal_witness :
  find_ftir_peaks (F := Binary64) [4000; 3998.5]%float [95.2; 94.8]%float 0.5%float
  = Some ([], []).
Proof. apply find_ftir_peaks_short_signal. simpl. lia. Defined.

(** C1 as stated fails with normalization on: the band of [band_file]
    stands at 2000 cm-1, where the file holds the transmittance 20, and
    the record reports 0, the scaled value. *)
Lemma normalized_record_is_not_the_file_value :
  load_ftir_data decimal_to_float band_file 1
  = Some (Usable [ {| x_val := 3000; y_val := 90 |};
                   {| x_val := 2000; y_val := 20 |};
                   {| x_val := 1000; y_val := 80 |} ]%float) /\
  option_map all_peaks_data
    (main decimal_to_float (with_normalize default_config true) [band_file])
  = Some [ {| Serie := "band";
              Numero_de_Onda := 2000%float;
              Transmitancia_Original := 0%float;
              Archivo_Origen := "band.csv" |} ] /\
  feq (Float64 := Binary64) 0%float (round_nd 20%float 4) = false.
Proof. repeat split; reflexivity. Qed.

(** C1 as amended, on the same file without normalization: the record
    reports the file's own value. *)
Lemma peak_record_reports_stored_row_witness :
  exists (file : UploadedFile (F := Binary64)) (df0 : Frame (F := Binary64))
         (row row0 : Row (F := Binary64)),
    In file [band_file] /\
    load_ftir_data decimal_to_float file 1 = Some (Usable df0) /\
    In row (scaled default_config (apply_mask default_config df0)) /\
    In row0 df0 /\ x_val row = x_val row0 /\
    (false = false -> row = row0) /\
    (false = true ->
     In (y_val row) (normalize_data (col_y (apply_mask default_config df0)))) /\
    2000%float = round_nd (x_val row) 2 /\
    20%float = round_nd (y_val row) 4 /\
    "band.csv" = name file.
Proof.
  apply (peak_record_reports_stored_row (F := Binary64) decimal_to_float default_config
           [band_file] band_page band_record).
  - reflexivity.
  - left. reflexivity.
Defined.

(** C7 as stated fails on a file that loads but lies outside the window:
    of one file none fails to load, yet no series is produced, and the
    file gets a warning. *)
Lemma window_loss_is_no_load_failure :
  List.length (filter (load_fails decimal_to_float default_config) [far_file]) = 0 /\
  option_map (fun page => List.length (plot_data page))
    (main decimal_to_float default_config [far_file]) = Some 0 /\
  option_map shown (main decimal_to_float default_config [far_file])
  = Some [st_warning "far.csv"].
Proof. repeat split; reflexivity. Qed.

(** C8 as stated fails on a table without a valid row: the loader
    returns the empty frame, not [None]. *)
Lemma load_of_blank_table_is_empty_frame :
  read_csv blank_file 1 = Some blank_table /\
  clean_rows decimal_to_float 0 1 (rows blank_table) = [] /\
  load_ftir_data decimal_to_float blank_file 1 = Some (Usable []) /\
  load_ftir_data decimal_to_float blank_file 1 <> None.
Proof. repeat split; try reflexivity. discriminate. Qed.

(** C8 as amended, on that table. *)
Lemma empty_frame_is_rejected_by_caller_witness :
  load_ftir_data decimal_to_float blank_file 1 = Some (Usable []) /\
  process_file decimal_to_float default_config 0 blank_file ([], [])
  = Some ([], [st_error "blank.csv"]).
Proof.
  apply (empty_frame_is_rejected_by_caller (F := Binary64) decimal_to_float default_config blank_file
           blank_table "wavenumber (cm-1)" "%t" 0 1 0 1 0 [] []);
    reflexivity.
Defined.

(** C10, on the two-row file: a series and no band. *)
Lemma no_band_no_table_witness :
  exists (notices : list (Event (F := Binary64))) (fig : Figure (F := Binary64)),
    shown two_row_page = notices ++ [st_pyplot fig; download_png fig] /\
    forallb is_notice notices = true /\
    lines fig = lines_from default_config 0 (plot_data two_row_page) /\
    (forall df_peaks, ~ In (download_csv df_peaks) (shown two_row_page)) /\
    (forall df_peaks, ~ In (st_dataframe df_peaks) (shown two_row_page)).
Proof.
  apply (no_band_no_table (F := Binary64) decimal_to_float default_config [two_row_file] two_row_page).
  - reflexivity.
  - discriminate.
  - reflexivity.
Defined.

(** C3 fails on the table with remarks: its second row has a wavenumber
    and a transmittance, both numbers, and is dropped for the empty
    remark. *)
Theorem dropna_reads_every_column :
  nth_error (rows noted_table) 1
  = Some [Number 3998.5; Number 94.8; Missing]%float /\
  select_columns (map (fun c => strip (lower c)) (columns noted_table))
  = Some ("wavenumber (cm-1)", "%t") /\
  load_ftir_data decimal_to_float noted_file 0
  = Some (Usable [ {| x_val := 4000; y_val := 95.2 |} ]%float).
Proof. repeat split; reflexivity. Qed.




(** * Further properties of the pipeline *)

(** ** The order of binary64 and of the rationals *)

(** The comparison of IEEE 754 values, case by case. *)
Ltac sf_cases :=
  unfold SFleb, SFltb, SFeqb, SFcompare;
  repeat match goal with
  | |- context [if ?s then _ else _] => is_var s; destruct s
  end;
  repeat match goal with
  | |- context [Z.compare ?a ?b] => destruct (Z.compare_spec a b)
  end;
  repeat match goal with
  | |- context [PosDef.Pos.compare_cont Eq ?a ?b] =>
      change (PosDef.Pos.compare_cont Eq a b) with (Pos.compare a b);
      destruct (Pos.compare_spec a b)
  end;
  cbn [CompOpp]; try reflexivity; try discriminate; try tauto;
  try (intros; subst; lia).

Lemma SFleb_trans (a b c : spec_float) :
  SFleb a b = true -> SFleb b c = true -> SFleb a c = true.
Proof.
  destruct a as [s1|s1| |s1 m1 e1], b as [s2|s2| |s2 m2 e2], c as [s3|s3| |s3 m3 e3];
    sf_cases.
Qed.

Lemma SFleb_total (a b : spec_float) :
  SFleb a a = true -> SFleb b b = true -> SFleb a b = true \/ SFleb b a = true.
Proof. destruct a as [s1|s1| |s1 m1 e1], b as [s2|s2| |s2 m2 e2]; sf_cases. Qed.

Lemma SFleb_ordered (a b : spec_float) :
  SFleb a b = true -> SFleb a a = true /\ SFleb b b = true.
Proof. destruct a as [s1|s1| |s1 m1 e1], b as [s2|s2| |s2 m2 e2]; sf_cases. Qed.

Lemma SFeqb_leb (a b : spec_float) : SFeqb a b = SFleb a b && SFleb b a.
Proof. destruct a as [s1|s1| |s1 m1 e1], b as [s2|s2| |s2 m2 e2]; sf_cases. Qed.

Lemma SFltb_leb (a b : spec_float) : SFltb a b = SFleb a b && negb (SFleb b a).
Proof. destruct a as [s1|s1| |s1 m1 e1], b as [s2|s2| |s2 m2 e2]; sf_cases. Qed.

(** Binary64 comparisons obey the order laws: by the kernel's
    specification of [<=?], [<?] and [=?] on its floating-point numbers. *)
Lemma Binary64Order : OrderLaws Binary64.
Proof.
  constructor; cbn [num fle feq flt Binary64]; intros a b.
  - intros c. rewrite !FloatAxioms.leb_spec. apply SFleb_trans.
  - rewrite !FloatAxioms.leb_spec. apply SFleb_total.
  - rewrite !FloatAxioms.leb_spec. apply SFleb_ordered.
  - rewrite FloatAxioms.eqb_spec, !FloatAxioms.leb_spec. apply SFeqb_leb.
  - rewrite FloatAxioms.ltb_spec, !FloatAxioms.leb_spec. apply SFltb_leb.
Qed.

Lemma laws_order (F : Float64) : Float64Laws F -> OrderLaws F.
Proof.
  intros L. constructor.
  - apply fle_trans.
  - apply fle_total.
  - apply fle_ordered.
  - apply feq_fle.
  - apply flt_fle.
Qed.

Lemma ExactOrder : OrderLaws Exact.
Proof. apply laws_order, ExactLaws. Qed.

#[export] Existing Instance Binary64Order.
#[export] Existing Instance ExactOrder.

(** ** Facts about lists, columns and sorting *)

Lemma nth_error_update_nth {A : Type} (f : A -> A) :
  forall (l : list A) (j p : nat),
  nth_error (update_nth j f l) p
  = if j =? p then option_map f (nth_error l p) else nth_error l p.
Proof.
  induction l as [|a l IH]; intros [|j] [|p]; cbn; try reflexivity.
  - now destruct (j =? p).
  - apply IH.
Qed.

Lemma positions_spec (label : string) :
  forall (cols : list string) (j0 p : nat),
  In p (positions label cols j0) <->
  exists q, p = j0 + q /\ nth_error cols q = Some label.
Proof.
  induction cols as [|c cols IH]; intros j0 p; cbn [positions].
  - split; [intros [] | intros (q & _ & H); destruct q; discriminate].
  - destruct (String.eqb c label) eqn:Hc.
    + apply String.eqb_eq in Hc. subst c. split.
      * intros [<- | H].
        -- exists 0. split; [lia | reflexivity].
        -- apply IH in H as (q & -> & Hq). exists (S q). split; [lia | exact Hq].
      * intros ([|q] & -> & Hq).
        -- left. lia.
        -- right. apply IH. exists q. split; [lia | exact Hq].
    + apply String.eqb_neq in Hc. rewrite IH. split.
      * intros (q & -> & Hq). exists (S q). split; [lia | exact Hq].
      * intros ([|q] & -> & Hq).
        -- cbn in Hq. congruence.
        -- exists q. split; [lia | exact Hq].
Qed.

(** A label that selects one column stands at that position and at no
    other. *)
Lemma column_index_spec (label : string) (cols : list string) (j : nat) :
  column_index label cols = Some j ->
  nth_error cols j = Some label /\
  forall j', nth_error cols j' = Some label -> j' = j.
Proof.
  unfold column_index. intros H.
  destruct (positions label cols 0) as [|j1 [|j2 l]] eqn:Hpos; try discriminate.
  injection H as ->.
  assert (Hin : forall p, In p [j] <-> exists q, p = 0 + q /\ nth_error cols q = Some label).
  { intros p. rewrite <- Hpos. apply positions_spec. }
  split.
  - destruct (proj1 (Hin j) (or_introl eq_refl)) as (q & -> & Hq). exact Hq.
  - intros j' Hj'. destruct (proj2 (Hin j')) as [H|[]]; [|congruence].
    exists j'. split; [reflexivity | exact Hj'].
Qed.

Lemma positions_absent (label : string) :
  forall (cols : list string) (j0 : nat),
  ~ In label cols -> positions label cols j0 = [].
Proof.
  induction cols as [|c cols IH]; intros j0 Hnot; cbn [positions]; [reflexivity|].
  destruct (String.eqb c label) eqn:Hc.
  - apply String.eqb_eq in Hc. subst c. exfalso. apply Hnot. now left.
  - apply IH. intros H. apply Hnot. now right.
Qed.

Lemma column_cells_spec {F : Float64} (j : nat) :
  forall (rs : list (list cell)) (cs : list cell),
  column_cells j rs = Some cs -> Forall2 (fun r c => nth_error r j = Some c) rs cs.
Proof.
  induction rs as [|r rs IH]; cbn [column_cells]; intros cs H.
  - injection H as <-. constructor.
  - destruct (nth_error r j) as [c|] eqn:Hc; [|discriminate].
    destruct (column_cells j rs) as [cs'|]; [|discriminate].
    injection H as <-. constructor; auto.
Qed.

Lemma numbers_of_spec {F : Float64} :
  forall (cs : list cell) (vs : list num),
  numbers_of cs = Some vs -> cs = map Number vs.
Proof.
  induction cs as [|c cs IH]; cbn [numbers_of]; intros vs H.
  - injection H as <-. reflexivity.
  - destruct c as [v| |]; try discriminate.
    destruct (numbers_of cs) as [vs'|]; [|discriminate].
    cbn in H. injection H as <-. cbn. f_equal. now apply IH.
Qed.

Lemma Forall2_nth_error {A B : Type} (P : A -> B -> Prop) :
  forall (l1 : list A) (l2 : list B) (i : nat) (b : B),
  Forall2 P l1 l2 -> nth_error l2 i = Some b ->
  exists a, nth_error l1 i = Some a /\ P a b.
Proof.
  intros l1 l2 i b H. revert i. induction H as [|a0 b0 l1 l2 H0 _ IH]; intros i Hb.
  - destruct i; discriminate.
  - destruct i as [|i]; cbn in *.
    + injection Hb as <-. now exists a0.
    + now apply IH.
Qed.

Lemma in_combine_nth_error {A B : Type} :
  forall (l1 : list A) (l2 : list B) (a : A) (b : B),
  In (a, b) (combine l1 l2) ->
  exists i, nth_error l1 i = Some a /\ nth_error l2 i = Some b.
Proof.
  induction l1 as [|a1 l1 IH]; intros [|b1 l2] a b H; cbn in H; try contradiction.
  destruct H as [[= <- <-] | H].
  - now exists 0.
  - destruct (IH l2 a b H) as (i & Ha & Hb). now exists (S i).
Qed.

Lemma insert_desc_perm {F : Float64} {A : Type} (key : A -> num) (a : A) :
  forall l : list A, Permutation (insert_desc key a l) (a :: l).
Proof.
  induction l as [|h t IH]; cbn [insert_desc]; [reflexivity|].
  destruct (flt (key a) (key h)); [|reflexivity].
  rewrite IH. apply perm_swap.
Qed.

(** Sorting moves the rows and neither adds nor loses one. *)
Lemma sort_values_desc_perm {F : Float64} {A : Type} (key : A -> num) :
  forall l : list A, Permutation (sort_values_desc key l) l.
Proof.
  induction l as [|a l IH]; cbn; [constructor|].
  fold (sort_values_desc key l). rewrite insert_desc_perm. now constructor.
Qed.

Section OrderFacts.

Context {F : Float64} {O : OrderLaws F}.

Lemma ord_flt_fle (a b : num) : flt a b = true -> fle a b = true.
Proof. rewrite ord_flt. intros H. now apply andb_true_iff in H as [H _]. Qed.

Lemma ord_not_flt (a b : num) :
  fle a a = true -> fle b b = true -> flt a b = false -> fle b a = true.
Proof.
  intros Ha Hb. rewrite ord_flt. intros H.
  destruct (ord_total a b Ha Hb) as [Hab|Hba]; [|exact Hba].
  rewrite Hab in H. cbn [andb] in H. now apply negb_false_iff in H.
Qed.

Lemma ord_flt_irrefl (a : num) : flt a a = false.
Proof. rewrite ord_flt. now destruct (fle a a). Qed.

Lemma ord_feq_iff (a b : num) : feq a b = true <-> fle a b = true /\ fle b a = true.
Proof. rewrite ord_feq. apply andb_true_iff. Qed.

Lemma not_nan_ordered (v : num) : isnan v = false -> fle v v = true.
Proof.
  unfold isnan. intros H. apply negb_false_iff in H.
  now apply ord_feq_iff in H as [H _].
Qed.

Lemma insert_desc_sorted {A : Type} (key : A -> num) (a : A) :
  forall l : list A,
  fle (key a) (key a) = true ->
  Forall (fun b => fle (key b) (key b) = true) l ->
  StronglySorted (fun r1 r2 => fle (key r2) (key r1) = true) l ->
  StronglySorted (fun r1 r2 => fle (key r2) (key r1) = true) (insert_desc key a l).
Proof.
  induction l as [|h t IH]; intros Ha Hl Hs; cbn [insert_desc].
  - repeat constructor.
  - inversion Hl as [|? ? Hh Ht]; subst. inversion Hs as [|? ? Hst Hht]; subst.
    destruct (flt (key a) (key h)) eqn:Hlt.
    + constructor; [now apply IH|].
      rewrite (insert_desc_perm key a t). constructor; [|exact Hht].
      now apply ord_flt_fle.
    + pose proof (ord_not_flt _ _ Ha Hh Hlt) as Hha.
      constructor; [exact Hs|]. constructor; [exact Hha|].
      revert Hht. apply Forall_impl. intros b Hb. eapply ord_trans; eauto.
Qed.

(** On keys without NaN the sort puts every row before the rows of
    smaller or equal key. *)
Lemma sort_values_desc_sorted {A : Type} (key : A -> num) :
  forall l : list A,
  Forall (fun b => fle (key b) (key b) = true) l ->
  StronglySorted (fun r1 r2 => fle (key r2) (key r1) = true) (sort_values_desc key l).
Proof.
  induction l as [|a l IH]; intros Hl; cbn; [constructor|].
  fold (sort_values_desc key l). inversion Hl as [|? ? Ha Hl']; subst.
  apply insert_desc_sorted; [exact Ha | | now apply IH].
  now rewrite (sort_values_desc_perm key l).
Qed.

End OrderFacts.

(** ** The loaded frame *)

Section LoaderFacts.

Context {F : Float64}.

Variable to_float : string -> option num.

(** What a load that hands back a usable frame went through. *)
Lemma load_Usable_inv (file : UploadedFile) (k : nat) (df : Frame) :
  load_ftir_data to_float file k = Some (Usable df) ->
  exists table w t jw jt jx jy xs ys,
    read_csv file k = Some table /\
    select_columns (map (fun c => strip (lower c)) (columns table)) = Some (w, t) /\
    column_index w (map (fun c => strip (lower c)) (columns table)) = Some jw /\
    column_index t (map (fun c => strip (lower c)) (columns table)) = Some jt /\
    column_index "x" (rename w t (map (fun c => strip (lower c)) (columns table)))
    = Some jx /\
    column_index "y" (rename w t (map (fun c => strip (lower c)) (columns table)))
    = Some jy /\
    column_cells jx (clean_rows to_float jw jt (rows table)) = Some (map Number xs) /\
    column_cells jy (clean_rows to_float jw jt (rows table)) = Some (map Number ys) /\
    df = sort_values_desc x_val (frame_of xs ys).
Proof.
  unfold load_ftir_data. intros H.
  destruct (read_csv file k) as [table|]; [|discriminate].
  destruct (select_columns _) as [[w t]|] eqn:Hsel; [|discriminate].
  destruct (column_index w _) as [jw|] eqn:Hw; [|discriminate].
  destruct (column_index t _) as [jt|] eqn:Ht; [|discriminate].
  unfold standardise in H.
  destruct (column_index "x" _) as [jx|] eqn:Hx; [|discriminate].
  destruct (column_cells jx _) as [x_cells|] eqn:Hxc; [|discriminate].
  destruct (numbers_of x_cells) as [xs|] eqn:Hxs;
    [|destruct (all_text x_cells); discriminate].
  destruct (positions "y" _ 0) as [|jy [|jy' l]] eqn:Hy; try discriminate.
  destruct (column_cells jy _) as [y_cells|] eqn:Hyc; [|discriminate].
  destruct (numbers_of y_cells) as [ys|] eqn:Hys; [|discriminate].
  injection H as <-.
  apply numbers_of_spec in Hxs, Hys. subst x_cells y_cells.
  exists table, w, t, jw, jt, jx, jy, xs, ys.
  repeat split; try assumption; try reflexivity.
  unfold column_index. now rewrite Hy.
Qed.

(** The numbers of a column of the cleaned rows are no NaN. *)
Lemma kept_column_no_nan (jw jt j : nat) (rs : list (list cell)) (vs : list num) :
  column_cells j (clean_rows to_float jw jt rs) = Some (map Number vs) ->
  Forall (fun v => isnan v = false) vs.
Proof.
  intros H. apply column_cells_spec in H. apply Forall_forall. intros v Hv.
  apply In_nth_error in Hv as [i Hi].
  destruct (Forall2_nth_error _ _ _ i (Number v) H) as (r & Hr & Hc).
  { now apply map_nth_error. }
  apply nth_error_In in Hr, Hc.
  apply (clean_rows_keeps to_float) in Hr as (_ & _ & _ & Hall).
  exact (Hall _ Hc).
Qed.

(** X1.  A frame that [load_ftir_data] returns holds no NaN, neither
    among its wavenumbers nor among its signal values: [dropna] removed
    the rows that had one. *)
Theorem loaded_frame_has_no_nan (file : UploadedFile) (k : nat) (df : Frame) :
  load_ftir_data to_float file k = Some (Usable df) ->
  Forall (fun r => isnan (x_val r) = false /\ isnan (y_val r) = false) df.
Proof.
  intros H.
  destruct (load_Usable_inv file k df H)
    as (table & w & t & jw & jt & jx & jy & xs & ys & _ & _ & _ & _ & _ & _
        & Hxs & Hys & ->).
  apply kept_column_no_nan in Hxs, Hys. rewrite Forall_forall in Hxs, Hys.
  apply Forall_forall. intros r Hr.
  apply (Permutation_in _ (sort_values_desc_perm x_val _)) in Hr.
  unfold frame_of in Hr. apply in_map_iff in Hr as ([x y] & <- & Hp). cbn.
  split; [apply Hxs; eapply in_combine_l | apply Hys; eapply in_combine_r]; eauto.
Qed.

Lemma load_Usable_sorted {O : OrderLaws F}
    (file : UploadedFile) (k : nat) (df : Frame) :
  load_ftir_data to_float file k = Some (Usable df) ->
  StronglySorted (fun r1 r2 => fle (x_val r2) (x_val r1) = true) df.
Proof.
  intros H.
  destruct (load_Usable_inv file k df H)
    as (table & w & t & jw & jt & jx & jy & xs & ys & _ & _ & _ & _ & _ & _
        & Hxs & _ & ->).
  apply kept_column_no_nan in Hxs. rewrite Forall_forall in Hxs.
  apply sort_values_desc_sorted. apply Forall_forall. intros r Hr.
  unfold frame_of in Hr. apply in_map_iff in Hr as ([x y] & <- & Hp). cbn.
  apply not_nan_ordered, Hxs. eapply in_combine_l; eauto.
Qed.

(** X2.  A frame that [load_ftir_data] returns is sorted by descending
    wavenumber: every row stands before all rows of smaller or equal
    wavenumber, whatever the order of the rows in the file. *)
Theorem loaded_frame_is_sorted_descending {O : OrderLaws F}
    (file : UploadedFile) (k : nat) (df : Frame) :
  load_ftir_data to_float file k = Some (Usable df) ->
  StronglySorted (fun r1 r2 => fle (x_val r2) (x_val r1) = true) df.
Proof. apply load_Usable_sorted. Qed.

(** X3.  When the two roles fall on two different columns, every row of
    the loaded frame is read off one row of the table: its [x] is what
    [pd.to_numeric] makes of that row's cell in the wavenumber column,
    its [y] what it makes of the cell in the transmittance column, and
    no cell of that row, in whichever column, is empty.  The frame has
    at most as many rows as the table. *)
Theorem loaded_row_comes_from_one_table_row (file : UploadedFile) (k : nat)
    (table : DataFrame) (w t : string) (jw jt : nat) (df : Frame) :
  read_csv file k = Some table ->
  select_columns (map (fun c => strip (lower c)) (columns table)) = Some (w, t) ->
  column_index w (map (fun c => strip (lower c)) (columns table)) = Some jw ->
  column_index t (map (fun c => strip (lower c)) (columns table)) = Some jt ->
  w <> t ->
  load_ftir_data to_float file k = Some (Usable df) ->
  List.length df <= List.length (rows table) /\
  forall r, In r df ->
    exists r0 cx cy,
      In r0 (rows table) /\
      nth_error r0 jw = Some cx /\ to_numeric to_float cx = Number (x_val r) /\
      nth_error r0 jt = Some cy /\ to_numeric to_float cy = Number (y_val r) /\
      forall c, In c r0 -> c <> Missing.
Proof.
  intros Hread Hsel Hw Ht Hwt H.
  destruct (load_Usable_inv file k df H)
    as (table' & w' & t' & jw' & jt' & jx & jy & xs & ys & Hread' & Hsel' & Hw' & Ht'
        & Hx & Hy & Hxs & Hys & ->).
  rewrite Hread in Hread'. injection Hread' as <-.
  rewrite Hsel in Hsel'. injection Hsel' as <- <-.
  rewrite Hw in Hw'. injection Hw' as <-. rewrite Ht in Ht'. injection Ht' as <-.
  set (cols := map (fun c => strip (lower c)) (columns table)) in *.
  set (kept := clean_rows to_float jw jt (rows table)) in *.
  destruct (column_index_spec _ _ _ Hw) as [Hjw _].
  destruct (column_index_spec _ _ _ Ht) as [Hjt _].
  destruct (column_index_spec _ _ _ Hx) as [_ Hjx].
  destruct (column_index_spec _ _ _ Hy) as [_ Hjy].
  assert (Ejx : jw = jx).
  { apply Hjx. unfold rename. rewrite nth_error_map, Hjw. cbn.
    destruct (String.eqb w t) eqn:E; [apply String.eqb_eq in E; contradiction|].
    now rewrite String.eqb_refl. }
  assert (Ejy : jt = jy).
  { apply Hjy. unfold rename. rewrite nth_error_map, Hjt. cbn.
    now rewrite String.eqb_refl. }
  subst jx jy.
  assert (Hne : jw <> jt) by (intros E; rewrite E in Hjw; congruence).
  apply column_cells_spec in Hxs, Hys.
  pose proof (Forall2_length Hxs) as Lx. pose proof (Forall2_length Hys) as Ly.
  rewrite length_map in Lx, Ly.
  split.
  - rewrite (Permutation_length (sort_values_desc_perm x_val _)).
    unfold frame_of. rewrite length_map, length_combine, <- Lx, <- Ly, Nat.min_id.
    unfold kept, clean_rows, dropna.
    etransitivity; [apply filter_length_le|]. now rewrite !length_map.
  - intros r Hr.
    apply (Permutation_in _ (sort_values_desc_perm x_val _)) in Hr.
    unfold frame_of in Hr. apply in_map_iff in Hr as ([x y] & <- & Hp). cbn.
    apply in_combine_nth_error in Hp as (i & Hxi & Hyi).
    destruct (Forall2_nth_error _ _ _ i (Number x) Hxs) as (row & Hrow & Hcx);
      [now apply map_nth_error|].
    destruct (Forall2_nth_error _ _ _ i (Number y) Hys) as (row' & Hrow' & Hcy);
      [now apply map_nth_error|].
    rewrite Hrow in Hrow'. injection Hrow' as <-.
    apply nth_error_In in Hrow.
    apply (clean_rows_keeps to_float) in Hrow as (r0 & Hr0 & -> & Hall).
    rewrite !nth_error_update_nth in Hcx, Hcy.
    rewrite Nat.eqb_refl in Hcx, Hcy.
    destruct (jt =? jw) eqn:E1; [apply Nat.eqb_eq in E1; congruence|].
    destruct (jw =? jt) eqn:E2; [apply Nat.eqb_eq in E2; congruence|].
    destruct (nth_error r0 jw) as [cx|] eqn:Hcx0; [|discriminate].
    destruct (nth_error r0 jt) as [cy|] eqn:Hcy0; [|discriminate].
    cbn in Hcx, Hcy. injection Hcx as Hcx. injection Hcy as Hcy.
    exists r0, cx, cy. repeat split; try assumption.
    intros c Hc ->. apply In_nth_error in Hc as [p Hp].
    assert (Hmiss : nth_error
              (update_nth jt (to_numeric to_float) (update_nth jw (to_numeric to_float) r0)) p
              = Some Missing).
    { rewrite !nth_error_update_nth, Hp. now destruct (jt =? p), (jw =? p). }
    apply nth_error_In, Hall in Hmiss. discriminate.
Qed.

(** No row of a table of which every row has an empty field survives the
    cleaning. *)
Lemma clean_rows_all_missing (jw jt : nat) (rs : list (list cell)) :
  Forall (fun r => In Missing r) rs -> clean_rows to_float jw jt rs = [].
Proof.
  intros Hall. unfold clean_rows, dropna. apply filter_none.
  apply forallb_forall. intros r Hr. rewrite map_map in Hr.
  apply in_map_iff in Hr as (r0 & <- & Hr0).
  rewrite Forall_forall in Hall. apply Hall in Hr0.
  apply negb_true_iff, not_true_is_false. intros Hok. rewrite forallb_forall in Hok.
  apply In_nth_error in Hr0 as [p Hp].
  assert (Hmiss : nth_error
            (update_nth jt (to_numeric to_float) (update_nth jw (to_numeric to_float) r0)) p
            = Some Missing).
  { rewrite !nth_error_update_nth, Hp. now destruct (jt =? p), (jw =? p). }
  apply nth_error_In, Hok in Hmiss. discriminate.
Qed.

Lemma standardise_no_rows (cols' : list string) :
  standardise cols' [] = None \/ standardise cols' [] = Some (Usable []) \/
  standardise cols' [] = Some (TwoY []).
Proof.
  unfold standardise. destruct (column_index "x" cols'); [|now left].
  cbn [column_cells numbers_of].
  destruct (positions "y" cols' 0) as [|jy [|jy' l]]; auto.
Qed.

(** X4.  A file of which every row has an empty field, in whichever
    column, counts as unreadable: no row survives [dropna], the caller
    sees no data, shows the error notice of the file and adds no
    series. *)
Theorem file_with_an_empty_field_in_every_row_is_rejected (cfg : Config) (i : nat)
    (file : UploadedFile) (table : DataFrame)
    (items : list PlotItem) (evs : list Event) :
  read_csv file (skip_rows cfg) = Some table ->
  Forall (fun r => In Missing r) (rows table) ->
  load_fails to_float cfg file = true /\
  process_file to_float cfg i file (items, evs)
  = Some (items, evs ++ [st_error (name file)]).
Proof.
  intros Hread Hall.
  assert (Hload : load_ftir_data to_float file (skip_rows cfg) = None \/
                  load_ftir_data to_float file (skip_rows cfg) = Some (Usable []) \/
                  load_ftir_data to_float file (skip_rows cfg) = Some (TwoY [])).
  { unfold load_ftir_data. rewrite Hread.
    destruct (select_columns _) as [[w t]|]; [|now left].
    destruct (column_index w _) as [jw|]; [|now left].
    destruct (column_index t _) as [jt|]; [|now left].
    rewrite (clean_rows_all_missing jw jt _ Hall). apply standardise_no_rows. }
  unfold load_fails, process_file.
  destruct Hload as [-> | [-> | ->]]; now split.
Qed.

(** X5.  A table of fewer than two columns never loads: without both
    keywords the loader asks for two columns, and with both keywords on
    the one column the renaming leaves no column [x]. *)
Theorem table_of_fewer_than_two_columns_never_loads (file : UploadedFile) (k : nat)
    (table : DataFrame) :
  read_csv file k = Some table ->
  List.length (columns table) < 2 ->
  load_ftir_data to_float file k = None.
Proof.
  intros Hread Hlen. unfold load_ftir_data. rewrite Hread.
  destruct (columns table) as [|c0 [|c1 cols]]; [reflexivity| |cbn in Hlen; lia].
  cbn [map]. set (c := strip (lower c0)).
  unfold select_columns. cbn [find].
  destruct (is_wavenumber_name c) eqn:Hwn; [|reflexivity].
  destruct (is_transmittance_name c) eqn:Htn; [|now destruct (negb _)].
  destruct (negb (truthy (Some c)) || negb (truthy (Some c))); [reflexivity|].
  unfold column_index. cbn [positions]. rewrite String.eqb_refl.
  unfold standardise, rename, column_index. cbn [map positions].
  rewrite String.eqb_refl. reflexivity.
Qed.

(** X6.  When the first column that reads as wavenumber is also the first
    that reads as transmittance, the renaming dictionary has one key and
    names that column [y]; unless the file brought a column called [x] of
    its own, [sort_values(by='x')] raises and the load fails. *)
Theorem one_column_in_both_roles_fails_the_load (file : UploadedFile) (k : nat)
    (table : DataFrame) (c : string) :
  read_csv file k = Some table ->
  find is_wavenumber_name (map (fun c => strip (lower c)) (columns table)) = Some c ->
  find is_transmittance_name (map (fun c => strip (lower c)) (columns table)) = Some c ->
  ~ In "x" (map (fun c => strip (lower c)) (columns table)) ->
  load_ftir_data to_float file k = None.
Proof.
  intros Hread Hw Ht Hx. unfold load_ftir_data. rewrite Hread.
  set (cols := map (fun c => strip (lower c)) (columns table)) in *.
  assert (Hsel : select_columns cols = Some (c, c) \/ select_columns cols = None
                 \/ exists c0 c1 rest, cols = c0 :: c1 :: rest /\ c = "").
  { unfold select_columns. rewrite Hw, Ht. cbn [truthy].
    destruct (String.eqb c "") eqn:E; cbn [negb orb]; [|now left].
    apply String.eqb_eq in E. destruct cols as [|c0 [|c1 rest]]; eauto 8. }
  destruct Hsel as [-> | [-> | (c0 & c1 & rest & _ & ->)]]; [|reflexivity|].
  - destruct (column_index c cols) as [j|]; [|reflexivity].
    assert (Hnox : positions "x" (rename c c cols) 0 = []).
    { apply positions_absent. unfold rename. intros Hin.
      apply in_map_iff in Hin as (c' & Hc' & Hin).
      destruct (String.eqb c' c); [discriminate|]. subst c'. contradiction. }
    unfold standardise, column_index. now rewrite Hnox.
  - apply find_some in Hw as [_ Hw]. discriminate Hw.
Qed.

End LoaderFacts.

(** ** The header keywords *)

Lemma prefix_app_l (a b : string) :
  forall s : string, prefix (a ++ b) s = true -> prefix a s = true.
Proof.
  induction a as [|c a IH]; intros s; cbn.
  - now destruct s.
  - destruct s as [|c' s]; cbn; [discriminate|].
    destruct (ascii_dec c c'); [apply IH | discriminate].
Qed.

(** A text that holds a word holds every beginning of that word. *)
Lemma contains_app_l (a b : string) :
  forall s : string, contains (a ++ b) s = true -> contains a s = true.
Proof.
  induction s as [|c s IH]; cbn [contains]; intros H.
  - apply orb_true_iff in H as [H | H]; [|discriminate].
    apply prefix_app_l in H. now rewrite H.
  - apply orb_true_iff in H as [H | H].
    + apply prefix_app_l in H. now rewrite H.
    + rewrite (IH H). apply orb_true_r.
Qed.

(** X7.  Two of the seven keywords never decide: a label that holds
    [wavenumber] holds [wave], and one that holds [trans] holds [tra].
    So a column reads as wavenumber when its label holds [cm-1], [wave]
    or [numero], and as transmittance when it holds [%t] or [tra]. *)
Theorem keyword_tests_in_fewer_words (c : string) :
  is_wavenumber_name c
  = contains "cm-1" c || contains "wave" c || contains "numero" c /\
  is_transmittance_name c = contains "%t" c || contains "tra" c.
Proof.
  unfold is_wavenumber_name, is_transmittance_name. split.
  - destruct (contains "wavenumber" c) eqn:H; [|now rewrite orb_false_r].
    change "wavenumber" with ("wave" ++ "number")%string in H.
    apply contains_app_l in H. rewrite H.
    now destruct (contains "cm-1" c), (contains "numero" c).
  - destruct (contains "trans" c) eqn:H; [|now rewrite orb_false_r].
    change "trans" with ("tra" ++ "ns")%string in H.
    apply contains_app_l in H. rewrite H.
    now destruct (contains "%t" c).
Qed.

(** ** Order and position of the detected bands *)

Lemma Subsequence_nil_l {A : Type} (l : list A) : Subsequence [] l.
Proof. induction l; now constructor. Qed.

Lemma Subsequence_In {A : Type} (l1 l2 : list A) :
  Subsequence l1 l2 -> forall a, In a l1 -> In a l2.
Proof.
  induction 1 as [|b l1 l2 _ IH|b l1 l2 _ IH]; intros a Ha.
  - exact Ha.
  - right. now apply IH.
  - destruct Ha as [<-|Ha]; [now left | right; now apply IH].
Qed.

Lemma Subsequence_sorted {A : Type} (R : A -> A -> Prop) (l1 l2 : list A) :
  Subsequence l1 l2 -> StronglySorted R l2 -> StronglySorted R l1.
Proof.
  induction 1 as [|b l1 l2 Hsub IH|b l1 l2 Hsub IH]; intros Hs.
  - constructor.
  - inversion Hs; subst. now apply IH.
  - inversion Hs as [|? ? Hs' Hall]; subst. constructor; [now apply IH|].
    rewrite Forall_forall in *. intros a Ha. apply Hall.
    eapply Subsequence_In; eauto.
Qed.

(** A weaker test keeps at least what a stronger test keeps. *)
Lemma filter_weaker_Subsequence {A : Type} (p q : A -> bool) (l : list A) :
  (forall a, q a = true -> p a = true) -> Subsequence (filter q l) (filter p l).
Proof.
  intros Hqp. induction l as [|a l IH]; cbn; [constructor|].
  destruct (q a) eqn:Hq.
  - rewrite (Hqp a Hq). now constructor.
  - destruct (p a); [now constructor | exact IH].
Qed.

Lemma filter_sorted {A : Type} (R : A -> A -> Prop) (p : A -> bool) (l : list A) :
  StronglySorted R l -> StronglySorted R (filter p l).
Proof. apply Subsequence_sorted, filter_Subsequence. Qed.

Lemma iloc_Subsequence {A : Type} (s : list A) (idx2 idx1 : list nat) :
  Subsequence idx2 idx1 ->
  forall l1, iloc s idx1 = Some l1 ->
  exists l2, iloc s idx2 = Some l2 /\ Subsequence l2 l1.
Proof.
  induction 1 as [|i idx2 idx1 _ IH|i idx2 idx1 _ IH]; cbn [iloc]; intros l1 H.
  - injection H as <-. exists []. split; [reflexivity | constructor].
  - destruct (nth_error s i) as [a|]; [|discriminate].
    destruct (iloc s idx1) as [l|]; [|discriminate]. injection H as <-.
    destruct (IH l eq_refl) as (l2 & -> & Hsub). exists l2.
    split; [reflexivity | now constructor].
  - destruct (nth_error s i) as [a|]; [|discriminate].
    destruct (iloc s idx1) as [l|]; [|discriminate]. injection H as <-.
    destruct (IH l eq_refl) as (l2 & -> & Hsub). exists (a :: l2).
    split; [reflexivity | now constructor].
Qed.

(** Positions behind the first entry select from the rest of the list. *)
Lemma iloc_cons {A : Type} (a : A) (s : list A) :
  forall idx : list nat,
  Forall (fun i => 0 < i) idx -> iloc (a :: s) idx = iloc s (map Nat.pred idx).
Proof.
  induction 1 as [|i idx Hi _ IH]; cbn [iloc map]; [reflexivity|].
  destruct i as [|i]; [lia|]. cbn [nth_error Nat.pred]. now rewrite IH.
Qed.

Lemma sorted_pred (idx : list nat) :
  Forall (fun i => 0 < i) idx -> StronglySorted lt idx -> StronglySorted lt (map Nat.pred idx).
Proof.
  intros Hpos Hs. induction Hs as [|i idx Hs IH Hall]; cbn; [constructor|].
  inversion Hpos as [|? ? Hi Hpos']; subst. constructor; [now apply IH|].
  rewrite Forall_forall in *. intros j Hj.
  apply in_map_iff in Hj as (j' & <- & Hj').
  specialize (Hall _ Hj'). specialize (Hpos' _ Hj'). lia.
Qed.

(** Selecting at increasing positions keeps the order of the list. *)
Lemma iloc_increasing {A : Type} :
  forall (s : list A) (idx : list nat) (l : list A),
  StronglySorted lt idx -> iloc s idx = Some l -> Subsequence l s.
Proof.
  induction s as [|a s IH]; intros idx l Hs H.
  - destruct idx as [|i idx]; cbn in H.
    + injection H as <-. constructor.
    + destruct i; discriminate.
  - destruct idx as [|i idx].
    + cbn in H. injection H as <-. apply Subsequence_nil_l.
    + inversion Hs as [|? ? Hs' Hall]; subst.
      assert (Hpos : Forall (fun j => 0 < j) idx).
      { revert Hall. apply Forall_impl. intros j. lia. }
      destruct i as [|i].
      * cbn [iloc nth_error] in H. rewrite (iloc_cons a s idx Hpos) in H.
        destruct (iloc s (map Nat.pred idx)) as [l'|] eqn:Hl; [|discriminate].
        injection H as <-. apply Subsequence_keep.
        apply (IH (map Nat.pred idx)); [now apply sorted_pred | exact Hl].
      * assert (Hpos' : Forall (fun j => 0 < j) (S i :: idx))
          by (constructor; [lia | exact Hpos]).
        rewrite (iloc_cons a s _ Hpos') in H. apply Subsequence_skip.
        apply (IH (map Nat.pred (S i :: idx))); [now apply sorted_pred | exact H].
Qed.

Lemma nth_error_removelast {A : Type} :
  forall (l : list A) (i : nat),
  S i < List.length l -> nth_error (removelast l) i = nth_error l i.
Proof.
  induction l as [|a l IH]; intros i Hi; [cbn in Hi; lia|].
  destruct l as [|b l]; [cbn in Hi; lia|].
  cbn [removelast]. destruct i as [|i]; [reflexivity|].
  cbn [nth_error]. apply IH. cbn in *. lia.
Qed.

Lemma iloc_removelast {A : Type} (s : list A) :
  forall idx : list nat,
  Forall (fun i => S i < List.length s) idx -> iloc (removelast s) idx = iloc s idx.
Proof.
  induction 1 as [|i idx Hi _ IH]; cbn [iloc]; [reflexivity|].
  now rewrite (nth_error_removelast s i Hi), IH.
Qed.

Section DetectorFacts.

Context {F : Float64}.

Lemma local_maxima_loop_from (x : list num) (i_max : nat) :
  forall fuel i,
  Forall (fun peak => i <= peak) (local_maxima_loop x i_max i fuel).
Proof.
  induction fuel as [|fuel IH]; intros i; cbn [local_maxima_loop]; [constructor|].
  destruct (i <? i_max) eqn:Hlt; [|constructor].
  apply Nat.ltb_lt in Hlt.
  assert (Hnext : forall j, i <= j ->
            Forall (fun peak => i <= peak) (local_maxima_loop x i_max j fuel)).
  { intros j Hj. generalize (IH j). apply Forall_impl. intros p. lia. }
  destruct (flt (at_index x (i - 1)) (at_index x i)); [|apply Hnext; lia].
  pose proof (plateau_end_bounds x i i_max i_max (i + 1)) as [Hlo Hhi].
  destruct (flt _ _); [|apply Hnext; lia].
  constructor; [|apply Hnext; lia].
  apply Nat.div_le_lower_bound; lia.
Qed.

(** The maxima are found from left to right, each once. *)
Lemma local_maxima_loop_increasing (x : list num) (i_max : nat) :
  forall fuel i, StronglySorted lt (local_maxima_loop x i_max i fuel).
Proof.
  induction fuel as [|fuel IH]; intros i; cbn [local_maxima_loop]; [constructor|].
  destruct (i <? i_max) eqn:Hlt; [|constructor].
  apply Nat.ltb_lt in Hlt.
  destruct (flt (at_index x (i - 1)) (at_index x i)); [|apply IH].
  pose proof (plateau_end_bounds x i i_max i_max (i + 1)) as [Hlo Hhi].
  destruct (flt _ _); [|apply IH].
  constructor; [apply IH|].
  generalize (local_maxima_loop_from x i_max fuel
                (plateau_end x i i_max (i + 1) i_max + 1)).
  apply Forall_impl. intros p Hp.
  pose proof (half_sum_le i (plateau_end x i i_max (i + 1) i_max - 1)). lia.
Qed.

(** The positions [find_peaks] returns: increasing, and never the first
    or the last sample. *)
Lemma find_peaks_positions (x : list num) (prominence : num) :
  StronglySorted lt (find_peaks x prominence) /\
  Forall (fun i => 0 < i /\ S i < List.length x) (find_peaks x prominence).
Proof.
  unfold find_peaks, local_maxima_1d. split.
  - apply filter_sorted, local_maxima_loop_increasing.
  - apply Forall_forall. intros i Hi. apply filter_In in Hi as [Hi _].
    pose proof (local_maxima_loop_from x (List.length x - 1) (List.length x) 1) as Hlo.
    pose proof (local_maxima_loop_below x (List.length x - 1) (List.length x) 1) as Hhi.
    rewrite Forall_forall in Hlo, Hhi. specialize (Hlo _ Hi). specialize (Hhi _ Hi). lia.
Qed.

(** X8.  The bands [find_ftir_peaks] returns are taken from [x] and
    [y] at the same positions; the positions increase, so the bands come
    in the order of the samples and no sample is reported twice; and the
    first and the last sample are never reported. *)
Theorem bands_are_interior_samples_in_order (x y px py : list num) (prominence : num) :
  find_ftir_peaks x y prominence = Some (px, py) ->
  exists peaks : list nat,
    iloc x peaks = Some px /\ iloc y peaks = Some py /\
    StronglySorted lt peaks /\
    Forall (fun i => 0 < i /\ S i < List.length y) peaks /\
    Subsequence px x /\
    Subsequence py (removelast (tl y)).
Proof.
  unfold find_ftir_peaks. intros H.
  set (peaks := find_peaks (map (fun v => fmul (of_int (-1)) v) y) prominence) in *.
  destruct (iloc x peaks) as [px'|] eqn:Hx; [|discriminate].
  destruct (iloc y peaks) as [py'|] eqn:Hy; [|discriminate].
  injection H as <- <-.
  destruct (find_peaks_positions (map (fun v => fmul (of_int (-1)) v) y) prominence)
    as [Hs Hin].
  fold peaks in Hs, Hin. rewrite length_map in Hin.
  exists peaks. repeat split; try assumption.
  - now apply (iloc_increasing x peaks).
  - clearbody peaks. destruct y as [|y0 y'].
    { destruct peaks as [|i peaks].
      - cbn in Hy. injection Hy as <-. constructor.
      - inversion Hin as [|? ? [_ Hi] _]; subst. cbn in Hi. lia. }
    cbn [tl].
    assert (Hpos : Forall (fun i => 0 < i) peaks).
    { revert Hin. apply Forall_impl. intros i. tauto. }
    rewrite (iloc_cons y0 y' peaks Hpos) in Hy.
    assert (Hlast : Forall (fun i => S i < List.length y') (map Nat.pred peaks)).
    { apply Forall_forall. intros j Hj. apply in_map_iff in Hj as (i & <- & Hi).
      rewrite Forall_forall in Hin. destruct (Hin _ Hi) as [H0 H1]. cbn in H1. lia. }
    rewrite <- (iloc_removelast y' _ Hlast) in Hy.
    apply (iloc_increasing _ (map Nat.pred peaks)); [now apply sorted_pred | exact Hy].
Qed.

(** The signal of a constant list. *)
Lemma at_index_repeat (w : num) (n k : nat) :
  k < n -> at_index (repeat w n) k = w.
Proof.
  unfold at_index. revert k. induction n as [|n IH]; intros k Hk; [lia|].
  destruct k as [|k]; cbn; [reflexivity|]. apply IH. lia.
Qed.

Context {O : OrderLaws F}.

(** While the plateau is walked every sample met equals the one the walk
    started from. *)
Lemma plateau_end_flat (x : list num) (i i_max : nat) :
  forall fuel i_ahead k,
  i_ahead <= k -> k < plateau_end x i i_max i_ahead fuel ->
  feq (at_index x k) (at_index x i) = true.
Proof.
  induction fuel as [|fuel IH]; intros i_ahead k Hlo Hhi; cbn [plateau_end] in Hhi; [lia|].
  destruct (i_ahead <? i_max); cbn [andb] in Hhi; [|lia].
  destruct (feq (at_index x i_ahead) (at_index x i)) eqn:Heq; [|lia].
  destruct (Nat.eq_dec k i_ahead) as [->|Hne]; [exact Heq|].
  apply (IH (S i_ahead)); [lia | exact Hhi].
Qed.

Lemma local_maxima_loop_maxima (x : list num) (i_max : nat) :
  forall fuel i,
  Forall (fun m => fle (at_index x (m - 1)) (at_index x m) = true /\
                   fle (at_index x (m + 1)) (at_index x m) = true)
         (local_maxima_loop x i_max i fuel).
Proof.
  induction fuel as [|fuel IH]; intros i; cbn [local_maxima_loop]; [constructor|].
  destruct (i <? i_max) eqn:Hlt; [|constructor].
  apply Nat.ltb_lt in Hlt.
  destruct (flt (at_index x (i - 1)) (at_index x i)) eqn:Hup; [|apply IH].
  pose proof (plateau_end_bounds x i i_max i_max (i + 1)) as [Hlo Hhi].
  set (i_ahead := plateau_end x i i_max (i + 1) i_max) in *.
  destruct (flt (at_index x i_ahead) (at_index x i)) eqn:Hdown; [|apply IH].
  constructor; [|apply IH].
  set (m := (i + (i_ahead - 1)) / 2).
  assert (Hm : i <= m <= i_ahead - 1).
  { unfold m. split; [apply Nat.div_le_lower_bound; lia | apply half_sum_le; lia]. }
  apply ord_flt_fle in Hup, Hdown.
  assert (Hii : fle (at_index x i) (at_index x i) = true)
    by (now apply ord_ordered in Hup).
  assert (Hflat : forall k, i <= k <= i_ahead - 1 ->
            fle (at_index x k) (at_index x i) = true /\
            fle (at_index x i) (at_index x k) = true).
  { intros k Hk. destruct (Nat.eq_dec k i) as [->|Hne]; [now split|].
    apply ord_feq_iff. apply (plateau_end_flat x i i_max i_max (i + 1)); fold i_ahead; lia. }
  destruct (Hflat m Hm) as [Hmi Him]. split.
  - destruct (Nat.eq_dec m i) as [E|Hne].
    + rewrite E. exact Hup.
    + destruct (Hflat (m - 1)) as [H1 _]; [lia|]. eapply ord_trans; eauto.
  - destruct (Nat.eq_dec (m + 1) i_ahead) as [E|Hne].
    + rewrite E. eapply ord_trans; eauto.
    + destruct (Hflat (m + 1)) as [H1 _]; [lia|]. eapply ord_trans; eauto.
Qed.

(** X9.  Every band stands at a local minimum of the transmittance as
    the detector sees it: at the positions [find_ftir_peaks] selects, the
    negated signal [-1*y] is at least as high as at the sample before and
    at the sample after, and none of the three is a NaN. *)
Theorem band_is_a_local_extremum (x y px py : list num) (prominence : num) :
  find_ftir_peaks x y prominence = Some (px, py) ->
  exists peaks : list nat,
    iloc x peaks = Some px /\ iloc y peaks = Some py /\
    Forall (fun m =>
              fle (fmul (of_int (-1)) (at_index y (m - 1)))
                  (fmul (of_int (-1)) (at_index y m)) = true /\
              fle (fmul (of_int (-1)) (at_index y (m + 1)))
                  (fmul (of_int (-1)) (at_index y m)) = true) peaks.
Proof.
  unfold find_ftir_peaks. intros H.
  set (s := map (fun v => fmul (of_int (-1)) v) y) in *.
  destruct (iloc x (find_peaks s prominence)) as [px'|] eqn:Hx; [|discriminate].
  destruct (iloc y (find_peaks s prominence)) as [py'|] eqn:Hy; [|discriminate].
  injection H as <- <-.
  exists (find_peaks s prominence). repeat split; try assumption.
  destruct (find_peaks_positions s prominence) as [_ Hin].
  unfold s in Hin. rewrite length_map in Hin. rewrite Forall_forall in Hin.
  apply Forall_forall. intros m Hm. specialize (Hin m Hm).
  unfold find_peaks, local_maxima_1d in Hm. apply filter_In in Hm as [Hm _].
  pose proof (local_maxima_loop_maxima s (List.length s - 1) (List.length s) 1) as Hall.
  rewrite Forall_forall in Hall. specialize (Hall m Hm).
  assert (Hat : forall k, k < List.length y ->
            at_index s k = fmul (of_int (-1)) (at_index y k)).
  { intros k Hk. unfold at_index, s.
    rewrite (nth_indep _ (of_int 0) (fmul (of_int (-1)) (of_int 0)))
      by (now rewrite length_map).
    apply map_nth. }
  rewrite !Hat in Hall by lia. exact Hall.
Qed.

(** X10.  Raising the prominence threshold only removes bands: the bands
    found at the higher threshold are among those found at the lower
    one, in the same order. *)
Theorem higher_prominence_keeps_fewer_bands (x y px1 py1 : list num) (p1 p2 : num) :
  fle p1 p2 = true ->
  find_ftir_peaks x y p1 = Some (px1, py1) ->
  exists px2 py2,
    find_ftir_peaks x y p2 = Some (px2, py2) /\
    Subsequence px2 px1 /\ Subsequence py2 py1.
Proof.
  unfold find_ftir_peaks. intros Hp H.
  set (s := map (fun v => fmul (of_int (-1)) v) y) in *.
  destruct (iloc x (find_peaks s p1)) as [px|] eqn:Hx; [|discriminate].
  destruct (iloc y (find_peaks s p1)) as [py|] eqn:Hy; [|discriminate].
  injection H as <- <-.
  assert (Hsub : Subsequence (find_peaks s p2) (find_peaks s p1)).
  { unfold find_peaks. apply filter_weaker_Subsequence.
    intros peak H2. eapply ord_trans; eauto. }
  destruct (iloc_Subsequence x _ _ Hsub px Hx) as (px2 & -> & Hpx).
  destruct (iloc_Subsequence y _ _ Hsub py Hy) as (py2 & -> & Hpy).
  now exists px2, py2.
Qed.

(** X11.  A flat signal has no band: when every sample has the same
    value, whatever the value, the prominence and the [x] column,
    [find_ftir_peaks] returns nothing and raises nothing. *)
Theorem flat_signal_has_no_band (x : list num) (v prominence : num) (n : nat) :
  find_ftir_peaks x (repeat v n) prominence = Some ([], []).
Proof.
  unfold find_ftir_peaks, find_peaks, local_maxima_1d.
  rewrite map_repeat, repeat_length.
  set (w := fmul (of_int (-1)) v).
  assert (Hloop : forall fuel i, 0 < i ->
            local_maxima_loop (repeat w n) (n - 1) i fuel = []).
  { induction fuel as [|fuel IH]; intros i Hi; cbn [local_maxima_loop]; [reflexivity|].
    destruct (i <? n - 1) eqn:Hlt; [|reflexivity].
    apply Nat.ltb_lt in Hlt.
    rewrite !at_index_repeat by lia. rewrite ord_flt_irrefl. apply IH. lia. }
  rewrite Hloop by lia. reflexivity.
Qed.

End DetectorFacts.

(** ** The shape of the scaled signal *)

Lemma normalize_data_length {F : Float64} (ys : list num) :
  List.length (normalize_data ys) = List.length ys.
Proof.
  unfold normalize_data.
  destruct (series_max ys), (series_min ys); try reflexivity.
  destruct (feq _ _); [reflexivity | apply length_map].
Qed.

Section ScalingShape.

Context {F : Float64} {L : Float64Laws F}.




End ScalingShape.

(** ** The entries of [plot_data] *)

Lemma map_fst_combine_le {A B : Type} :
  forall (l : list A) (l' : list B),
  List.length l <= List.length l' -> map fst (combine l l') = l.
Proof.
  induction l as [|a l IH]; intros [|b l'] H; cbn in *; try reflexivity; try lia.
  f_equal. apply IH. lia.
Qed.

Lemma StronglySorted_map {A B : Type} (R : B -> B -> Prop) (f : A -> B) (l : list A) :
  StronglySorted (fun a1 a2 => R (f a1) (f a2)) l -> StronglySorted R (map f l).
Proof.
  induction 1 as [|a l _ IH Hall]; cbn; constructor; [exact IH|].
  rewrite Forall_forall in *. intros b Hb.
  apply in_map_iff in Hb as (a' & <- & Ha'). now apply Hall.
Qed.

Section ScriptFacts.

Context {F : Float64}.

Variable to_float : string -> option num.

(** Scaling replaces the signal and leaves the wavenumbers. *)
Lemma scaled_col_x (cfg : Config) (df0 : Frame) : col_x (scaled cfg df0) = col_x df0.
Proof.
  unfold scaled. destruct (normalize_option cfg); [|reflexivity].
  unfold col_x, set_col_y. rewrite map_map. cbn [x_val].
  rewrite <- (map_map fst x_val). rewrite map_fst_combine_le; [reflexivity|].
  rewrite normalize_data_length. unfold col_y. now rewrite length_map.
Qed.

Lemma process_file_entry (cfg : Config) (i : nat) (file : UploadedFile)
    (items items' : list PlotItem) (evs evs' : list Event) :
  process_file to_float cfg i file (items, evs) = Some (items', evs') ->
  items' = items \/
  exists df0,
    load_ftir_data to_float file (skip_rows cfg) = Some (Usable df0) /\
    apply_mask cfg df0 <> [] /\
    items' = items ++ [plot_entry cfg i file df0].
Proof.
  unfold process_file.
  destruct (load_ftir_data to_float file (skip_rows cfg))
    as [[[|r df0] | [|n] | [|v xs]]|] eqn:Hload; cbv beta iota;
    try (intros [= <- _]; now left); try discriminate.
  - destruct (apply_mask cfg (r :: df0)) as [|r' df1] eqn:Hmask.
    + intros [= <- _]. now left.
    + intros [= <- _]. right. exists (r :: df0).
      split; [reflexivity|]. split; [now rewrite Hmask|].
      unfold plot_entry. now rewrite Hmask.
  - destruct (filter (in_window cfg) (v :: xs)); [|discriminate].
    intros [= <- _]. now left.
Qed.

(** Every entry the file loop adds is the entry of one uploaded file,
    built with the position the file has in the upload. *)
Lemma file_loop_origin (cfg : Config) :
  forall files i items evs items' evs',
  file_loop to_float cfg i files (items, evs) = Some (items', evs') ->
  exists new,
    items' = items ++ new /\
    Forall (fun item => exists k file df0,
              nth_error files k = Some file /\
              load_ftir_data to_float file (skip_rows cfg) = Some (Usable df0) /\
              apply_mask cfg df0 <> [] /\
              item = plot_entry cfg (i + k) file df0) new.
Proof.
  induction files as [|file files IH]; intros i items evs items' evs' H.
  - cbn in H. injection H as <- <-. exists []. split; [now rewrite app_nil_r | constructor].
  - cbn [file_loop] in H.
    destruct (process_file to_float cfg i file (items, evs)) as [[items1 evs1]|] eqn:Hstep;
      [|discriminate].
    apply IH in H as (new & -> & Hnew).
    assert (Hshift : Forall (fun item => exists k f df0,
              nth_error (file :: files) k = Some f /\
              load_ftir_data to_float f (skip_rows cfg) = Some (Usable df0) /\
              apply_mask cfg df0 <> [] /\
              item = plot_entry cfg (i + k) f df0) new).
    { revert Hnew. apply Forall_impl. intros item (k & f & df0 & Hk & Hl & Hm & ->).
      exists (S k), f, df0. repeat split; try assumption.
      now rewrite Nat.add_succ_r. }
    apply process_file_entry in Hstep as [-> | (df0 & Hl & Hm & ->)].
    + now exists new.
    + exists (plot_entry cfg i file df0 :: new). split; [now rewrite <- app_assoc|].
      constructor; [|exact Hshift].
      exists 0, file, df0. repeat split; try assumption. now rewrite Nat.add_0_r.
Qed.

Lemma plot_data_origin (cfg : Config) (files : list UploadedFile) (page : Page)
    (item : PlotItem) :
  main to_float cfg files = Some page -> In item (plot_data page) ->
  exists k file df0,
    nth_error files k = Some file /\
    load_ftir_data to_float file (skip_rows cfg) = Some (Usable df0) /\
    apply_mask cfg df0 <> [] /\
    item = plot_entry cfg k file df0.
Proof.
  intros Hmain Hin.
  destruct (main_spec to_float cfg files page Hmain) as (notices & Hloop & _).
  apply file_loop_origin in Hloop as (new & Hnew & Hall).
  cbn [app] in Hnew. rewrite Hnew in Hin.
  rewrite Forall_forall in Hall. exact (Hall item Hin).
Qed.

Lemma in_window_bounds (cfg : Config) (v : num) :
  in_window cfg v = true <->
  fle (x_min_limit cfg) v = true /\ fle v (x_max_limit cfg) = true.
Proof. unfold in_window, fge. rewrite andb_true_iff. tauto. Qed.

(** X14.  Every entry of [plot_data] comes from one uploaded file, whose
    name it keeps; its frame has at least one row, and every row of it
    lies inside the wavenumber window, also after the scaling. *)
Theorem every_series_has_rows_inside_the_window (cfg : Config)
    (files : list UploadedFile) (page : Page) (item : PlotItem) :
  main to_float cfg files = Some page -> In item (plot_data page) ->
  df item <> [] /\
  Forall (fun v => fle (x_min_limit cfg) v = true /\ fle v (x_max_limit cfg) = true)
         (col_x (df item)) /\
  exists file, In file files /\ filename item = name file.
Proof.
  intros Hmain Hin.
  destruct (plot_data_origin cfg files page item Hmain Hin)
    as (k & file & df0 & Hk & _ & Hmask & ->).
  cbn [df filename plot_entry].
  pose proof (scaled_col_x cfg (apply_mask cfg df0)) as Hx.
  repeat split.
  - intros E. rewrite E in Hx. cbn in Hx.
    destruct (apply_mask cfg df0); [congruence | discriminate].
  - rewrite Hx. apply Forall_forall. intros v Hv.
    unfold col_x, apply_mask in Hv. apply in_map_iff in Hv as (r & <- & Hr).
    apply filter_In in Hr as [_ Hr]. now apply in_window_bounds.
  - exists file. split; [eapply nth_error_In; eauto | reflexivity].
Qed.

(** X15.  With the label and colour widgets left at what the script
    proposes, an entry of [plot_data] is labelled with the name of its
    file up to the last dot, and coloured with the palette entry at the
    file's position in the upload, counted modulo six: a file that fails
    or lies outside the window still uses up its position. *)
Theorem untouched_widgets_give_the_defaults (cfg : Config)
    (files : list UploadedFile) (page : Page) (item : PlotItem) :
  (forall i proposed, text_input cfg i proposed = proposed) ->
  (forall i proposed, color_picker cfg i proposed = proposed) ->
  main to_float cfg files = Some page -> In item (plot_data page) ->
  exists k file,
    nth_error files k = Some file /\
    filename item = name file /\
    label item = rsplit_dot_head (name file) /\
    nth_error default_colors (k mod 6) = Some (color item).
Proof.
  intros Htext Hcolor Hmain Hin.
  destruct (plot_data_origin cfg files page item Hmain Hin)
    as (k & file & df0 & Hk & _ & _ & ->).
  exists k, file. cbn [filename label color plot_entry].
  rewrite Htext, Hcolor. repeat split; try assumption.
  change (List.length default_colors) with 6.
  apply nth_error_nth'. change (List.length default_colors) with 6.
  apply Nat.mod_upper_bound. discriminate.
Qed.

(** The page, from first to last: the per-file notices (or the welcome
    text), then, when [plot_data] has an entry, the figure and the
    downloads. *)
Lemma shown_layout (cfg : Config) (files : list UploadedFile) (page : Page) :
  main to_float cfg files = Some page ->
  exists pre,
    (forall e, In e pre -> is_notice e = true \/ e = st_info) /\
    shown page
    = pre ++ match plot_data page with
             | [] => []
             | _ => st_pyplot (figure cfg (lines_from cfg 0 (plot_data page)))
                    :: exports (figure cfg (lines_from cfg 0 (plot_data page)))
                               (all_peaks_data page)
             end /\
    (plot_data page = [] -> all_peaks_data page = []).
Proof.
  intros Hmain.
  destruct (main_spec to_float cfg files page Hmain)
    as (notices & Hloop & Hpk & Hnone & Hsome).
  destruct (file_loop_spec to_float cfg files 0 [] [] _ Hloop)
    as (items & evs & [= _ Hevs] & _ & _ & _ & Hnot & _).
  cbn [app] in Hevs. subst notices. rewrite forallb_forall in Hnot.
  destruct (plot_data page) as [|it its] eqn:Hpd.
  - exists (shown page). rewrite app_nil_r. split; [|split; [reflexivity|]].
    + rewrite (Hnone eq_refl). destruct files; [intros e [<-|[]]; now right|].
      intros e He. left. now apply Hnot.
    + intros _. exact Hpk.
  - exists evs. split; [|split].
    + intros e He. left. now apply Hnot.
    + apply Hsome. discriminate.
    + discriminate.
Qed.

(** X16.  The downloads follow what was built: the figure is shown, and
    the image offered, exactly when [plot_data] has an entry, and the
    image is the figure shown; the band table is offered and displayed
    exactly when a band was detected, and it is the whole of
    [all_peaks_data]. *)
Theorem downloads_follow_the_figure (cfg : Config) (files : list UploadedFile)
    (page : Page) :
  main to_float cfg files = Some page ->
  (forall fig, In (st_pyplot fig) (shown page) <->
               plot_data page <> [] /\
               fig = figure cfg (lines_from cfg 0 (plot_data page))) /\
  (forall fig, In (download_png fig) (shown page) <-> In (st_pyplot fig) (shown page)) /\
  (forall t, In (download_csv t) (shown page) <->
             t = all_peaks_data page /\ t <> []) /\
  (forall t, In (st_dataframe t) (shown page) <-> In (download_csv t) (shown page)).
Proof.
  intros Hmain.
  destruct (shown_layout cfg files page Hmain) as (pre & Hpre & Hshown & Hnopk).
  assert (Hin : forall e, is_notice e = false -> e <> st_info ->
            (In e (shown page) <->
             In e match plot_data page with
                  | [] => []
                  | _ => st_pyplot (figure cfg (lines_from cfg 0 (plot_data page)))
                         :: exports (figure cfg (lines_from cfg 0 (plot_data page)))
                                    (all_peaks_data page)
                  end)).
  { intros e H1 H2. rewrite Hshown, in_app_iff. split; [|tauto].
    intros [H|H]; [|exact H]. destruct (Hpre e H); congruence. }
  split; [|split; [|split]]; intros e;
    rewrite !Hin by (first [reflexivity | discriminate]);
    destruct (plot_data page) as [|it its];
    try rewrite (Hnopk eq_refl);
    try (destruct (all_peaks_data page) as [|rec recs]);
    cbn [exports In]; intuition (subst; try congruence; try discriminate).
Qed.

(** *** Widget keys *)

Lemma str_of_nat_inj (i j : nat) : str_of_nat i = str_of_nat j -> i = j.
Proof.
  unfold str_of_nat. intros H.
  apply (f_equal NilEmpty.uint_of_string) in H. rewrite !NilEmpty.usu in H.
  injection H as H. now apply Unsigned.to_uint_inj.
Qed.

Lemma expander_keys_disjoint (i j : nat) (key : string) :
  In key (expander_keys i) -> In key (expander_keys j) -> i = j.
Proof.
  unfold expander_keys. cbn [In append].
  intros [<-|[<-|[<-|[]]]] [H|[H|[H|[]]]]; try discriminate H;
    injection H as H; symmetry; now apply str_of_nat_inj.
Qed.

Lemma expander_keys_NoDup (i : nat) : NoDup (expander_keys i).
Proof.
  unfold expander_keys. cbn [append].
  repeat constructor; cbn [In]; intros H;
    repeat (destruct H as [H|H]; [discriminate H|]); exact H.
Qed.

Lemma widget_keys_from (cfg : Config) :
  forall files i key,
  In key (widget_keys to_float cfg i files) ->
  exists k, i <= k /\ In key (expander_keys k).
Proof.
  induction files as [|file files IH]; intros i key H; [destruct H|].
  cbn [widget_keys] in H. apply in_app_or in H as [H|H].
  - destruct (processed to_float cfg file); [|destruct H]. now exists i.
  - destruct (IH (S i) key H) as (k & Hk & Hin). exists k. split; [lia | exact Hin].
Qed.

(** X17.  No two widgets of a run share a key: the keys [lbl_i], [clr_i]
    and [lst_i] of the files that get an expander are all different,
    from whatever position the count starts, so Streamlit has no
    duplicate key to refuse. *)
Theorem widget_keys_are_distinct (cfg : Config) (files : list UploadedFile) (i : nat) :
  NoDup (widget_keys to_float cfg i files).
Proof.
  revert i. induction files as [|file files IH]; intros i; cbn [widget_keys]; [constructor|].
  apply NoDup_app; [| apply IH |].
  - destruct (processed to_float cfg file); [apply expander_keys_NoDup | constructor].
  - intros key H1 H2.
    destruct (processed to_float cfg file); [|destruct H1].
    apply widget_keys_from in H2 as (k & Hk & H2).
    pose proof (expander_keys_disjoint i k key H1 H2). lia.
Qed.

(** *** Sorted series, and the inverted window *)

Context {O : OrderLaws F}.

(** X18.  Every series of [plot_data] runs by descending wavenumber, and
    so do the bands detected in it: each wavenumber is at least the
    wavenumbers after it.  The detector never raises on a series. *)
Theorem series_and_bands_run_by_descending_wavenumber (cfg : Config)
    (files : list UploadedFile) (page : Page) (item : PlotItem) :
  main to_float cfg files = Some page -> In item (plot_data page) ->
  StronglySorted (fun a b => fle b a = true) (col_x (df item)) /\
  exists px py,
    find_ftir_peaks (col_x (df item)) (col_y (df item)) (prom cfg) = Some (px, py) /\
    StronglySorted (fun a b => fle b a = true) px.
Proof.
  intros Hmain Hin.
  destruct (plot_data_origin cfg files page item Hmain Hin)
    as (k & file & df0 & _ & Hload & _ & ->).
  cbn [df plot_entry].
  assert (Hsorted : StronglySorted (fun a b => fle b a = true)
                      (col_x (scaled cfg (apply_mask cfg df0)))).
  { rewrite scaled_col_x. unfold col_x, apply_mask.
    apply StronglySorted_map, filter_sorted.
    exact (load_Usable_sorted to_float file _ df0 Hload). }
  split; [exact Hsorted|].
  destruct (find_ftir_peaks_total (col_x (scaled cfg (apply_mask cfg df0)))
              (col_y (scaled cfg (apply_mask cfg df0))) (prom cfg))
    as (px & py & Hfind).
  { unfold col_x, col_y. now rewrite !length_map. }
  exists px, py. split; [exact Hfind|].
  unfold find_ftir_peaks in Hfind.
  destruct (iloc (col_x _) _) as [px'|] eqn:Hx; [|discriminate].
  destruct (iloc (col_y _) _) as [py'|]; [|discriminate].
  injection Hfind as <- <-.
  eapply Subsequence_sorted; [|exact Hsorted].
  eapply iloc_increasing; [|exact Hx]. apply find_peaks_positions.
Qed.

(** X19.  With the window turned round (the upper limit below the lower
    one) nothing is plotted: [plot_data] and the band table stay empty,
    the page shows notices only, and every file that loads gets the
    warning that it has no data in the range. *)
Theorem inverted_window_plots_nothing (cfg : Config) (files : list UploadedFile)
    (page : Page) :
  flt (x_max_limit cfg) (x_min_limit cfg) = true ->
  main to_float cfg files = Some page ->
  plot_data page = [] /\ all_peaks_data page = [] /\
  (forall e, In e (shown page) -> is_notice e = true \/ e = st_info) /\
  warnings (shown page)
  = map name (filter (fun file => negb (load_fails to_float cfg file)) files).
Proof.
  intros Hinv Hmain.
  assert (Hempty : plot_data page = []).
  { destruct (plot_data page) as [|item items] eqn:Hpd; [reflexivity|]. exfalso.
    destruct (plot_data_origin cfg files page item Hmain) as (k & file & df0 & _ & _ & Hne & _).
    { rewrite Hpd. now left. }
    destruct (apply_mask cfg df0) as [|r rs] eqn:Hmask; [congruence|].
    assert (Hr : In r (apply_mask cfg df0)) by (rewrite Hmask; now left).
    apply filter_In in Hr as [_ Hr]. apply in_window_bounds in Hr as [Hlo Hhi].
    rewrite ord_flt in Hinv. apply andb_true_iff in Hinv as [_ Hinv].
    apply negb_true_iff in Hinv.
    rewrite (ord_trans _ _ _ Hlo Hhi) in Hinv. discriminate. }
  destruct (shown_layout cfg files page Hmain) as (pre & Hpre & Hshown & Hnopk).
  rewrite Hempty, app_nil_r in Hshown. subst pre.
  repeat split; [exact Hempty | now apply Hnopk | exact Hpre |].
  destruct (main_spec to_float cfg files page Hmain) as (notices & Hloop & _ & Hnone & _).
  pose proof (file_loop_raises to_float cfg files 0 _ _ Hloop) as Hok.
  destruct (file_loop_spec to_float cfg files 0 [] [] _ Hloop)
    as (items & evs & [= Hitems Hevs] & Hproc & _ & Hwarn & _ & _).
  cbn [app] in Hitems, Hevs. subst notices.
  rewrite Hempty in Hitems. subst items. cbn [map] in Hproc.
  assert (Hw : warnings (shown page) = warnings evs).
  { rewrite (Hnone Hempty). destruct files; [|reflexivity].
    cbn in Hloop. injection Hloop as _ <-. reflexivity. }
  rewrite Hw, Hwarn. f_equal. apply filter_ext_in. intros file Hfile.
  assert (Hp : processed to_float cfg file = false).
  { destruct (processed to_float cfg file) eqn:E; [|reflexivity].
    assert (Hin : In (name file) (map name (filter (processed to_float cfg) files))).
    { apply in_map, filter_In. now split. }
    rewrite <- Hproc in Hin. destruct Hin. }
  assert (Hr : raises to_float cfg file = false).
  { rewrite forallb_forall in Hok. now apply negb_true_iff, Hok. }
  destruct (process_file_cases to_float cfg 0 file [] [])
    as [(-> & -> & _) | [(-> & -> & _) | [(_ & _ & E & _) | (_ & _ & _ & E & _)]]];
    try reflexivity; congruence.
Qed.

End ScriptFacts.

(** ** The default label *)

Lemma before_last_dot_none (s : string) :
  contains "." s = false -> before_last_dot s = None.
Proof.
  induction s as [|c s IH]; cbn [contains before_last_dot]; [reflexivity|].
  intros H. apply orb_false_iff in H as [Hc Hs]. rewrite (IH Hs).
  cbn in Hc. destruct (ascii_dec "." c) as [<-|Hne].
  - now destruct s.
  - destruct (Ascii.eqb c ".") eqn:E; [|reflexivity].
    apply Ascii.eqb_eq in E. congruence.
Qed.

Lemma before_last_dot_app (base ext : string) :
  before_last_dot ext = None ->
  before_last_dot (base ++ "." ++ ext)%string = Some base.
Proof.
  intros H. induction base as [|c base IH]; cbn.
  - now rewrite H.
  - cbn in IH. now rewrite IH.
Qed.

(** X20.  The label the script proposes for a file called [base.ext],
    where [ext] holds no dot, is [base], whatever dots [base] holds; a
    name without a dot is proposed as it is. *)
Theorem default_label_drops_the_last_extension (base ext : string) :
  contains "." ext = false ->
  rsplit_dot_head (base ++ "." ++ ext)%string = base /\ rsplit_dot_head ext = ext.
Proof.
  intros H. apply before_last_dot_none in H. unfold rsplit_dot_head.
  now rewrite (before_last_dot_app base ext H), H.
Qed.

(** ** Rounding, on exact values *)



(** ** More on the loader and on the run *)

Section RunFacts.

Context {F : Float64}.

Variable to_float : string -> option num.

(** X22.  A label that stands twice among the cleaned column labels (as
    [CM-1] and [cm-1 ] do, once lowered and stripped) and is chosen for
    one of the two roles makes the load fail: [df[label]] is then a
    table, which [pd.to_numeric] refuses. *)
Theorem repeated_label_fails_the_load (file : UploadedFile) (k : nat)
    (table : DataFrame) (w t c : string) (i j : nat) :
  read_csv file k = Some table ->
  select_columns (map (fun c => strip (lower c)) (columns table)) = Some (w, t) ->
  c = w \/ c = t ->
  nth_error (map (fun c => strip (lower c)) (columns table)) i = Some c ->
  nth_error (map (fun c => strip (lower c)) (columns table)) j = Some c ->
  i <> j ->
  load_ftir_data to_float file k = None.
Proof.
  intros Hread Hsel Hc Hi Hj Hij. unfold load_ftir_data. rewrite Hread, Hsel.
  set (cols := map (fun c => strip (lower c)) (columns table)) in *.
  assert (Hnone : column_index c cols = None).
  { destruct (column_index c cols) as [p|] eqn:Hp; [|reflexivity].
    apply column_index_spec in Hp as [_ Huniq].
    pose proof (Huniq i Hi). pose proof (Huniq j Hj). congruence. }
  destruct Hc as [-> | ->]; rewrite Hnone; [reflexivity|].
  now destruct (column_index w cols).
Qed.

Lemma forallb_negb_existsb {A : Type} (p : A -> bool) (l : list A) :
  forallb (fun a => negb (p a)) l = negb (existsb p l).
Proof.
  induction l as [|a l IH]; [reflexivity|].
  cbn. rewrite IH. now destruct (p a).
Qed.

(** X23.  The run ends in an exception that nothing catches exactly when
    one of the uploaded files loads into a frame that clashes with the
    standard labels: a column [x] of text with at least one row, or two
    columns [y] with a row inside the window.  Unreadable files, empty
    frames and files outside the window never do that. *)
Theorem run_raises_exactly_on_a_clashing_frame (cfg : Config)
    (files : list UploadedFile) :
  main to_float cfg files = None <-> existsb (raises to_float cfg) files = true.
Proof.
  split.
  - intros Hnone. destruct (existsb (raises to_float cfg) files) eqn:E; [reflexivity|].
    destruct (main_runs to_float cfg files) as [page Hpage]; [|congruence].
    now rewrite forallb_negb_existsb, E.
  - intros Hex. destruct (main to_float cfg files) as [page|] eqn:Hmain; [|reflexivity].
    destruct (main_spec to_float cfg files page Hmain) as (notices & Hloop & _).
    apply file_loop_raises in Hloop. rewrite forallb_negb_existsb, Hex in Hloop.
    discriminate.
Qed.

(** The expanders the file loop shows, from position [i] on. *)
Lemma file_loop_expanders (cfg : Config) :
  forall files i items evs items' evs',
  file_loop to_float cfg i files (items, evs) = Some (items', evs') ->
  exists new,
    evs' = evs ++ new /\
    forall nm b, In (st_expander nm b) new ->
      exists k file,
        nth_error files k = Some file /\ nm = name file /\ b = (i + k =? 0) /\
        processed to_float cfg file = true.
Proof.
  induction files as [|file files IH]; intros i items evs items' evs' H.
  - cbn in H. injection H as <- <-. exists []. split; [now rewrite app_nil_r | intros ? ? []].
  - cbn [file_loop] in H.
    assert (Hshift : forall new : list Event,
              (forall nm b, In (st_expander nm b) new ->
                 exists k f, nth_error files k = Some f /\ nm = name f /\
                             b = (S i + k =? 0) /\ processed to_float cfg f = true) ->
              forall nm b, In (st_expander nm b) new ->
                 exists k f, nth_error (file :: files) k = Some f /\ nm = name f /\
                             b = (i + k =? 0) /\ processed to_float cfg f = true).
    { intros new Hnew nm b Hin. destruct (Hnew nm b Hin) as (k & f & Hk & Hn & Hb & Hp).
      exists (S k), f. repeat split; try assumption. now rewrite Nat.add_succ_r. }
    destruct (process_file_cases to_float cfg i file items evs)
      as [(_ & _ & _ & _ & Hstep) | [(_ & _ & _ & _ & Hstep)
         | [(_ & _ & Hp & _ & item & df0 & _ & _ & _ & Hstep)
         | (_ & _ & _ & _ & Hstep)]]];
      rewrite Hstep in H; [| | |discriminate];
      apply IH in H as (new & -> & Hnew); rewrite <- app_assoc; cbn [app];
      eexists; (split; [reflexivity|]); intros nm b [Hin|Hin];
      try discriminate Hin; try (now apply (Hshift new Hnew)).
    injection Hin as <- <-. exists 0, file. repeat split; try assumption.
    now rewrite Nat.add_0_r.
Qed.

(** X24.  Only the panel of the first uploaded file opens expanded, and
    only when that file becomes a series: the panels of all later files
    are shown closed, and when the first file fails or lies outside the
    window no panel is open. *)
Theorem only_the_first_file_opens_expanded (cfg : Config)
    (files : list UploadedFile) (page : Page) (nm : string) :
  main to_float cfg files = Some page ->
  In (st_expander nm true) (shown page) ->
  exists file,
    nth_error files 0 = Some file /\ nm = name file /\
    processed to_float cfg file = true.
Proof.
  intros Hmain Hin.
  destruct (main_spec to_float cfg files page Hmain) as (notices & Hloop & _ & Hnone & Hsome).
  assert (Hnot : In (st_expander nm true) notices).
  { destruct (plot_data page) as [|it its].
    - rewrite (Hnone eq_refl) in Hin. destruct files; [|exact Hin].
      destruct Hin as [Hin|[]]. discriminate.
    - rewrite (Hsome ltac:(discriminate)) in Hin.
      apply in_app_or in Hin as [Hin|Hin]; [exact Hin|]. exfalso.
      unfold exports in Hin. destruct (all_peaks_data page); cbn in Hin;
        repeat (destruct Hin as [Hin|Hin]; [discriminate Hin|]); exact Hin. }
  apply file_loop_expanders in Hloop as (new & Hnew & Hall).
  cbn [app] in Hnew. subst notices.
  destruct (Hall nm true Hnot) as (k & file & Hk & Hn & Hb & Hp).
  cbn [Nat.add] in Hb. symmetry in Hb. apply Nat.eqb_eq in Hb. subst k.
  now exists file.
Qed.

Lemma map_snd_combine_le {A B : Type} :
  forall (l : list A) (l' : list B),
  List.length l' <= List.length l -> map snd (combine l l') = l'.
Proof.
  induction l as [|a l IH]; intros [|b l'] H; cbn in *; try reflexivity; try lia.
  f_equal. apply IH. lia.
Qed.

(** X25.  The scaling is computed inside the window: with normalization
    on, the signal stored for a series is [normalize_data] of the signal
    of the rows that passed the mask, so rows outside the window weigh
    on neither the minimum nor the maximum; the wavenumbers stored are
    those of the masked rows.  With normalization off the masked rows
    are stored as they are. *)
Theorem scaling_is_computed_inside_the_window (cfg : Config)
    (files : list UploadedFile) (page : Page) (item : PlotItem) :
  main to_float cfg files = Some page -> In item (plot_data page) ->
  exists file df0,
    In file files /\ filename item = name file /\
    load_ftir_data to_float file (skip_rows cfg) = Some (Usable df0) /\
    col_x (df item) = col_x (apply_mask cfg df0) /\
    col_y (df item)
    = (if normalize_option cfg
       then normalize_data (col_y (apply_mask cfg df0))
       else col_y (apply_mask cfg df0)) /\
    (normalize_option cfg = false -> df item = apply_mask cfg df0).
Proof.
  intros Hmain Hin.
  destruct (plot_data_origin to_float cfg files page item Hmain Hin)
    as (k & file & df0 & Hk & Hload & _ & ->).
  exists file, df0. cbn [df filename plot_entry].
  repeat split; try assumption.
  - eapply nth_error_In; eauto.
  - apply scaled_col_x.
  - unfold scaled. destruct (normalize_option cfg); [|reflexivity].
    unfold col_y at 1, set_col_y. rewrite map_map. cbn [y_val].
    rewrite <- (map_map snd (fun v => v)), map_id.
    apply map_snd_combine_le. rewrite normalize_data_length.
    unfold col_y. now rewrite length_map.
  - unfold scaled. now intros ->.
Qed.

End RunFacts.

(** ** The further properties on the example inputs *)

Example str_of_nat_by_example :
  str_of_nat 0 = "0" /\ str_of_nat 7 = "7" /\ str_of_nat 120 = "120" /\
  expander_keys 12 = ["lbl_12"; "clr_12"; "lst_12"] /\
  widget_keys decimal_to_float default_config 0
    [band_file; garbage_file; far_file; two_row_file]
  = ["lbl_0"; "clr_0"; "lst_0"; "lbl_3"; "clr_3"; "lst_3"].
Proof. repeat split; reflexivity. Qed.

Example more_loads_by_example :
  load_ftir_data decimal_to_float one_column_file 1 = None /\
  load_ftir_data decimal_to_float double_role_file 1 = None /\
  load_ftir_data decimal_to_float repeated_file 1 = None /\
  load_ftir_data decimal_to_float trailing_file 1 = Some (Usable []) /\
  main decimal_to_float inverted_config [band_file; garbage_file] = Some inverted_page.
Proof. repeat split; reflexivity. Qed.

(** The frame of the band file: its rows stand 1000, 3000, 2000 in the
    file. *)
Lemma loaded_frame_is_sorted_descending_witness :
  StronglySorted (fun r1 r2 : Row (F := Binary64) => fle (x_val r2) (x_val r1) = true)
    [ {| x_val := 3000; y_val := 90 |}; {| x_val := 2000; y_val := 20 |};
      {| x_val := 1000; y_val := 80 |} ]%float.
Proof.
  apply (loaded_frame_is_sorted_descending (F := Binary64) decimal_to_float band_file 1).
  reflexivity.
Defined.

Lemma loaded_frame_has_no_nan_witness :
  Forall (fun r : Row (F := Binary64) => isnan (x_val r) = false /\ isnan (y_val r) = false)
    [ {| x_val := 3000; y_val := 90 |}; {| x_val := 2000; y_val := 20 |};
      {| x_val := 1000; y_val := 80 |} ]%float.
Proof.
  apply (loaded_frame_has_no_nan (F := Binary64) decimal_to_float band_file 1).
  reflexivity.
Defined.

Lemma loaded_row_comes_from_one_table_row_witness :
  List.length [ {| x_val := 3000; y_val := 90 |}; {| x_val := 2000; y_val := 20 |};
                {| x_val := 1000; y_val := 80 |} ]%float
  <= List.length (rows band_table) /\
  forall r : Row (F := Binary64),
    In r [ {| x_val := 3000; y_val := 90 |}; {| x_val := 2000; y_val := 20 |};
           {| x_val := 1000; y_val := 80 |} ]%float ->
    exists r0 cx cy,
      In r0 (rows band_table) /\
      nth_error r0 0 = Some cx /\ to_numeric decimal_to_float cx = Number (x_val r) /\
      nth_error r0 1 = Some cy /\ to_numeric decimal_to_float cy = Number (y_val r) /\
      forall c, In c r0 -> c <> Missing.
Proof.
  apply (loaded_row_comes_from_one_table_row (F := Binary64) decimal_to_float band_file 1
           band_table "wavenumber (cm-1)" "%t" 0 1);
    try reflexivity.
  discriminate.
Defined.

Lemma file_with_an_empty_field_in_every_row_is_rejected_witness :
  load_fails decimal_to_float default_config trailing_file = true /\
  process_file decimal_to_float default_config 0 trailing_file ([], [])
  = Some ([], [] ++ [st_error (name trailing_file)]).
Proof.
  apply (file_with_an_empty_field_in_every_row_is_rejected (F := Binary64)
           decimal_to_float default_config 0 trailing_file trailing_table [] []).
  - reflexivity.
  - repeat (constructor; [right; right; left; reflexivity|]). constructor.
Defined.

Lemma table_of_fewer_than_two_columns_never_loads_witness :
  load_ftir_data decimal_to_float one_column_file 1 = None.
Proof.
  apply (table_of_fewer_than_two_columns_never_loads (F := Binary64) decimal_to_float
           one_column_file 1 one_column_table).
  - reflexivity.
  - apply Nat.lt_succ_diag_r.
Defined.

Lemma one_column_in_both_roles_fails_the_load_witness :
  load_ftir_data decimal_to_float double_role_file 1 = None.
Proof.
  apply (one_column_in_both_roles_fails_the_load (F := Binary64) decimal_to_float
           double_role_file 1 double_role_table "wave trans").
  - reflexivity.
  - reflexivity.
  - reflexivity.
  - change (~ In "x" ["wave trans"; "intensity"]).
    intros [H|[H|[]]]; discriminate H.
Defined.

Lemma repeated_label_fails_the_load_witness :
  load_ftir_data decimal_to_float repeated_file 1 = None.
Proof.
  apply (repeated_label_fails_the_load (F := Binary64) decimal_to_float repeated_file 1
           repeated_table "cm-1" "%t" "cm-1" 0 1).
  - reflexivity.
  - reflexivity.
  - left. reflexivity.
  - reflexivity.
  - reflexivity.
  - discriminate.
Defined.

(** A signal with two bands, of depth 0.8 and 0.7. *)
Lemma bands_are_interior_samples_in_order_witness :
  exists peaks : list nat,
    iloc (A := num (Float64 := Binary64)) [10; 9; 8; 7; 6; 5; 4; 3; 2; 1]%float peaks
    = Some [7; 3]%float /\
    iloc (A := num (Float64 := Binary64)) [1; 1; 1; 0.2; 1; 1; 1; 0.3; 1; 1]%float peaks
    = Some [0.2; 0.3]%float /\
    StronglySorted lt peaks /\
    Forall (fun i => 0 < i /\
                     S i < List.length [1; 1; 1; 0.2; 1; 1; 1; 0.3; 1; 1]%float) peaks /\
    Subsequence [7; 3]%float [10; 9; 8; 7; 6; 5; 4; 3; 2; 1]%float /\
    Subsequence [0.2; 0.3]%float
      (removelast (tl [1; 1; 1; 0.2; 1; 1; 1; 0.3; 1; 1]%float)).
Proof.
  apply (bands_are_interior_samples_in_order (F := Binary64)
           [10; 9; 8; 7; 6; 5; 4; 3; 2; 1]%float
           [1; 1; 1; 0.2; 1; 1; 1; 0.3; 1; 1]%float
           [7; 3]%float [0.2; 0.3]%float 0.5%float).
  reflexivity.
Defined.

Lemma band_is_a_local_extremum_witness :
  exists peaks : list nat,
    iloc (A := num (Float64 := Binary64)) [10; 9; 8; 7; 6; 5; 4; 3; 2; 1]%float peaks
    = Some [7; 3]%float /\
    iloc (A := num (Float64 := Binary64)) [1; 1; 1; 0.2; 1; 1; 1; 0.3; 1; 1]%float peaks
    = Some [0.2; 0.3]%float /\
    Forall (fun m =>
              fle (Float64 := Binary64)
                  (fmul (of_int (-1))
                     (at_index [1; 1; 1; 0.2; 1; 1; 1; 0.3; 1; 1]%float (m - 1)))
                  (fmul (of_int (-1))
                     (at_index [1; 1; 1; 0.2; 1; 1; 1; 0.3; 1; 1]%float m)) = true /\
              fle (Float64 := Binary64)
                  (fmul (of_int (-1))
                     (at_index [1; 1; 1; 0.2; 1; 1; 1; 0.3; 1; 1]%float (m + 1)))
                  (fmul (of_int (-1))
                     (at_index [1; 1; 1; 0.2; 1; 1; 1; 0.3; 1; 1]%float m)) = true)
           peaks.
Proof.
  apply (band_is_a_local_extremum (F := Binary64)
           [10; 9; 8; 7; 6; 5; 4; 3; 2; 1]%float
           [1; 1; 1; 0.2; 1; 1; 1; 0.3; 1; 1]%float
           [7; 3]%float [0.2; 0.3]%float 0.5%float).
  reflexivity.
Defined.

(** At the threshold 0.75 only the deeper band is left. *)
Lemma higher_prominence_keeps_fewer_bands_witness :
  exists px2 py2 : list (num (Float64 := Binary64)),
    find_ftir_peaks [10; 9; 8; 7; 6; 5; 4; 3; 2; 1]%float
                    [1; 1; 1; 0.2; 1; 1; 1; 0.3; 1; 1]%float 0.75%float
    = Some (px2, py2) /\
    Subsequence px2 [7; 3]%float /\ Subsequence py2 [0.2; 0.3]%float.
Proof.
  apply (higher_prominence_keeps_fewer_bands (F := Binary64)
           [10; 9; 8; 7; 6; 5; 4; 3; 2; 1]%float
           [1; 1; 1; 0.2; 1; 1; 1; 0.3; 1; 1]%float
           [7; 3]%float [0.2; 0.3]%float 0.5%float 0.75%float);
    reflexivity.
Defined.

Lemma flat_signal_has_no_band_witness :
  find_ftir_peaks (F := Binary64) [4; 3; 2; 1]%float (repeat 95.2%float 4) 0.5%float
  = Some ([], []).
Proof.
  apply (flat_signal_has_no_band (F := Binary64) [4; 3; 2; 1]%float 95.2%float 0.5%float 4).
Defined.



(** The run on the band file alone. *)
Lemma every_series_has_rows_inside_the_window_witness :
  exists item : PlotItem (F := Binary64),
    In item (plot_data band_page) /\
    df item <> [] /\
    Forall (fun v => fle (x_min_limit default_config) v = true /\
                     fle v (x_max_limit default_config) = true)
           (col_x (df item)) /\
    exists file, In file [band_file] /\ filename item = name file.
Proof.
  eexists. split; [left; reflexivity|].
  apply (every_series_has_rows_inside_the_window (F := Binary64) decimal_to_float
           default_config [band_file] band_page).
  - reflexivity.
  - left. reflexivity.
Defined.

Lemma untouched_widgets_give_the_defaults_witness :
  exists item : PlotItem (F := Binary64),
    In item (plot_data band_page) /\
    exists k file,
      nth_error [band_file] k = Some file /\
      filename item = name file /\
      label item = rsplit_dot_head (name file) /\
      nth_error default_colors (k mod 6) = Some (color item).
Proof.
  eexists. split; [left; reflexivity|].
  apply (untouched_widgets_give_the_defaults (F := Binary64) decimal_to_float
           default_config [band_file] band_page).
  - intros i proposed. reflexivity.
  - intros i proposed. reflexivity.
  - reflexivity.
  - left. reflexivity.
Defined.

Lemma downloads_follow_the_figure_witness :
  (forall fig : Figure (F := Binary64),
     In (st_pyplot fig) (shown band_page) <->
     plot_data band_page <> [] /\
     fig = figure default_config (lines_from default_config 0 (plot_data band_page))) /\
  (forall fig, In (download_png fig) (shown band_page)
               <-> In (st_pyplot fig) (shown band_page)) /\
  (forall t, In (download_csv t) (shown band_page) <->
             t = all_peaks_data band_page /\ t <> []) /\
  (forall t, In (st_dataframe t) (shown band_page)
             <-> In (download_csv t) (shown band_page)).
Proof.
  apply (downloads_follow_the_figure (F := Binary64) decimal_to_float default_config
           [band_file] band_page).
  reflexivity.
Defined.

Lemma series_and_bands_run_by_descending_wavenumber_witness :
  exists item : PlotItem (F := Binary64),
    In item (plot_data band_page) /\
    StronglySorted (fun a b => fle b a = true) (col_x (df item)) /\
    exists px py,
      find_ftir_peaks (col_x (df item)) (col_y (df item)) (prom default_config)
      = Some (px, py) /\
      StronglySorted (fun a b => fle b a = true) px.
Proof.
  eexists. split; [left; reflexivity|].
  apply (series_and_bands_run_by_descending_wavenumber (F := Binary64) decimal_to_float
           default_config [band_file] band_page).
  - reflexivity.
  - left. reflexivity.
Defined.

(** The band file and an unreadable file under the inverted window: a
    warning for the one, the error notice for the other. *)
Lemma inverted_window_plots_nothing_witness :
  plot_data inverted_page = [] /\ all_peaks_data inverted_page = [] /\
  (forall e, In e (shown inverted_page) -> is_notice e = true \/ e = st_info) /\
  warnings (shown inverted_page)
  = map name (filter (fun file => negb (load_fails decimal_to_float inverted_config file))
                [band_file; garbage_file]).
Proof.
  apply (inverted_window_plots_nothing (F := Binary64) decimal_to_float inverted_config
           [band_file; garbage_file] inverted_page).
  - reflexivity.
  - reflexivity.
Defined.

Lemma default_label_drops_the_last_extension_witness :
  rsplit_dot_head ("run.01" ++ "." ++ "csv")%string = "run.01" /\
  rsplit_dot_head "csv" = "csv".
Proof. apply (default_label_drops_the_last_extension "run.01" "csv"). reflexivity. Defined.

Lemma only_the_first_file_opens_expanded_witness :
  exists file : UploadedFile (F := Binary64),
    nth_error [band_file] 0 = Some file /\ "band.csv" = name file /\
    processed decimal_to_float default_config file = true.
Proof.
  apply (only_the_first_file_opens_expanded (F := Binary64) decimal_to_float
           default_config [band_file] band_page "band.csv").
  - reflexivity.
  - left. reflexivity.
Defined.

(** The band file with normalization on: 90, 20 and 80 become 1, 0 and
    6/7. *)
Lemma scaling_is_computed_inside_the_window_witness :
  exists item : PlotItem (F := Binary64),
    In item (plot_data band_page_normalized) /\
    exists file df0,
      In file [band_file] /\ filename item = name file /\
      load_ftir_data decimal_to_float file
        (skip_rows (with_normalize default_config true)) = Some (Usable df0) /\
      col_x (df item) = col_x (apply_mask (with_normalize default_config true) df0) /\
      col_y (df item)
      = (if normalize_option (with_normalize default_config true)
         then normalize_data (col_y (apply_mask (with_normalize default_config true) df0))
         else col_y (apply_mask (with_normalize default_config true) df0)) /\
      (normalize_option (with_normalize default_config true) = false ->
       df item = apply_mask (with_normalize default_config true) df0).
Proof.
  eexists. split; [left; reflexivity|].
  apply (scaling_is_computed_inside_the_window (F := Binary64) decimal_to_float
           (with_normalize default_config true) [band_file] band_page_normalized).
  - reflexivity.
  - left. reflexivity.
Defined.
